(** * protractor-base-dsl: the wait engine and the DSL built on it

    A shallow embedding of [src/app/common/wait-condition.js],
    [src/app/common/expectation.js] and the [Action] class, over a small
    model of the browser-automation client they drive.

    - JavaScript values, promises and template strings are modelled as far
      as the three files use them.
    - The browser is a page that changes with time; every poll of a wait
      reads the page at the current instant and takes [latency]
      milliseconds.
    - Every call that reaches the automation client is recorded in a trace,
      so that the order of waits, clicks and assertions can be stated. *)

From Stdlib Require Import ZArith QArith Qpower List String Ascii Bool Lia DecimalString.
Import ListNotations.
Close Scope Q_scope.
Open Scope string_scope.
Open Scope Z_scope.

(** ** JavaScript values *)

(** Numbers are the integers on which double-precision arithmetic is
    exact, plus [NaN]. *)
Inductive JsVal : Type :=
| JUndefined
| JNull
| JBool (b : bool)
| JNum (n : Z)
| JNaN
| JStr (s : string).

(** [!!v] *)
Definition truthy (v : JsVal) : bool :=
  match v with
  | JUndefined | JNull | JNaN => false
  | JBool b => b
  | JNum n => negb (n =? 0)
  | JStr s => negb (s =? "")%string
  end.

(** [a || b] *)
Definition js_or (a b : JsVal) : JsVal := if truthy a then a else b.

Definition string_of_Z (n : Z) : string := NilZero.string_of_int (Z.to_int n).

(** [`${v}`] *)
Definition toString (v : JsVal) : string :=
  match v with
  | JUndefined => "undefined"
  | JNull => "null"
  | JBool true => "true"
  | JBool false => "false"
  | JNum n => string_of_Z n
  | JNaN => "NaN"
  | JStr s => s
  end.

Definition JsVal_eqb (a b : JsVal) : bool :=
  match a, b with
  | JUndefined, JUndefined | JNull, JNull | JNaN, JNaN => true
  | JBool x, JBool y => Bool.eqb x y
  | JNum x, JNum y => x =? y
  | JStr x, JStr y => (x =? y)%string
  | _, _ => false
  end.

(** ** Numbers

    A number is a double: [Finite m e] stands for [m * 2^e], and what an
    operation computes is rounded to the nearest double, ties to even.
    The sign of zero is not kept. *)
Inductive JsNumber : Type :=
| NaN
| Infinity (negative : bool)
| Finite (m e : Z).

Definition bit_length (a : Z) : Z := if a =? 0 then 0 else Z.log2 a + 1.

(** [m * 2^e] rounded to a double: 53 bits, no exponent below -1074, and
    [Infinity] from [2^1024] on. *)
Definition round_double (m e : Z) : JsNumber :=
  let a := Z.abs m in
  let s := Z.max (bit_length a - 53) (- 1074 - e) in
  let q :=
    if s <=? 0 then a
    else
      let q := Z.shiftr a s in
      let r := a - Z.shiftl q s in
      let half := Z.shiftl 1 (s - 1) in
      if (half <? r) || ((r =? half) && Z.odd q) then q + 1 else q in
  let e' := if s <=? 0 then e else e + s in
  if (0 <=? e') && (2 ^ 1024 <=? q * 2 ^ e') then Infinity (m <? 0)
  else Finite (Z.sgn m * q) e'.



(** [a <= b]; a comparison with [NaN] is false. *)
Definition js_le (a b : JsNumber) : bool :=
  match a, b with
  | NaN, _ | _, NaN => false
  | Infinity true, _ => true
  | _, Infinity false => true
  | Infinity false, _ => false
  | _, Infinity true => false
  | Finite m1 e1, Finite m2 e2 =>
      let k := Z.min e1 e2 in
      m1 * 2 ^ (e1 - k) <=? m2 * 2 ^ (e2 - k)
  end.

(** [a < b] *)
Definition js_lt (a b : JsNumber) : bool :=
  match a, b with
  | NaN, _ | _, NaN => false
  | _, Infinity true => false
  | Infinity true, _ => true
  | Infinity false, _ => false
  | _, Infinity false => true
  | Finite m1 e1, Finite m2 e2 =>
      let k := Z.min e1 e2 in
      m1 * 2 ^ (e1 - k) <? m2 * 2 ^ (e2 - k)
  end.

(** The functions of ramda that the sources use. *)
Module R.
(** [R.equals]: structural equality, no coercion. *)
Definition equals (a b : JsVal) : bool := JsVal_eqb a b.
(** [R.isNil] *)
Definition isNil (v : JsVal) : bool :=
  match v with JUndefined | JNull => true | _ => false end.
(** [R.T] and [R.F] ignore their argument. *)
Definition T {A} (_ : A) : JsVal := JBool true.
Definition F {A} (_ : A) : JsVal := JBool false.
Definition gte (a b : JsNumber) : bool := js_le b a.
Definition gt (a b : JsNumber) : bool := js_lt b a.
End R.

(** ** Promises *)

Inductive Error : Type :=
| TimeoutError (message : string)
| WebDriverError (message : string).

Definition error_message (e : Error) : string :=
  match e with TimeoutError m | WebDriverError m => m end.

(** A [TypeError]; among the errors it is one that is not a timeout. *)
Definition TypeError (message : string) : Error :=
  WebDriverError ("TypeError: " ++ message).

Inductive Promise : Type :=
| Pending
| Fulfilled (v : JsVal)
| Rejected (e : Error).

(** [p.then(onFulfilled)] *)
Definition then1 (p : Promise) (onFulfilled : JsVal -> JsVal) : Promise :=
  match p with
  | Pending => Pending
  | Fulfilled v => Fulfilled (onFulfilled v)
  | Rejected e => Rejected e
  end.

(** [p.then(onFulfilled, onRejected)] *)
Definition then2 (p : Promise) (onFulfilled : JsVal -> JsVal)
           (onRejected : Error -> JsVal) : Promise :=
  match p with
  | Pending => Pending
  | Fulfilled v => Fulfilled (onFulfilled v)
  | Rejected e => Fulfilled (onRejected e)
  end.

(** [p.then(onFulfilled)] for a callback that may throw: what it throws
    rejects the promise. *)
Definition then_try (p : Promise) (onFulfilled : JsVal -> Error + JsVal) : Promise :=
  match p with
  | Pending => Pending
  | Fulfilled v =>
      match onFulfilled v with
      | inr r => Fulfilled r
      | inl e => Rejected e
      end
  | Rejected e => Rejected e
  end.

(** [p.then(onFulfilled, onRejected)] for an [onFulfilled] that may throw:
    [onRejected] handles the rejection of [p], not what [onFulfilled]
    throws. *)
Definition then2_try (p : Promise) (onFulfilled : JsVal -> Error + JsVal)
           (onRejected : Error -> JsVal) : Promise :=
  match p with
  | Pending => Pending
  | Fulfilled v =>
      match onFulfilled v with
      | inr r => Fulfilled r
      | inl e => Rejected e
      end
  | Rejected e => Fulfilled (onRejected e)
  end.

(** The promise is fulfilled with a truthy value. *)
Definition holds (p : Promise) : bool :=
  match p with Fulfilled v => truthy v | _ => false end.

(** The promise is fulfilled with a falsy value. *)
Definition fails (p : Promise) : bool :=
  match p with Fulfilled v => negb (truthy v) | _ => false end.

(** ** The page *)

Record Element : Type := mkElement {
  el_text : string;
  el_displayed : bool;
  el_enabled : bool;
  el_selected : bool;
  el_attributes : list (string * string)
}.

(** A page answers a CSS query with the elements that match, in document
    order. *)
Definition Dom : Type := string -> list Element.

Inductive Locator : Type :=
| ByCss (value : JsVal).

Definition Locator_toString (l : Locator) : string :=
  match l with ByCss v => "By(css selector, " ++ toString v ++ ")" end.

(** An element finder is a recipe, resolved against the page each time one
    of its methods is called. *)
Inductive ElementFinder : Type :=
| ElementBy (loc : Locator)
| FirstWithText (loc : Locator) (expectedText : JsVal).

(** What the DSL accepts as [selector]: a CSS selector, an element finder,
    or nothing when the argument is left out. *)
Inductive Selector : Type :=
| Css (s : string)
| Finder (f : ElementFinder)
| Omitted.

(** ** The world the DSL runs in *)

(** Calls that reach the automation client or the test framework, in the
    order in which they happen. *)
Inductive Event : Type :=
| EvLocate (selector : Selector)
| EvWait (timeout : JsVal) (message : option string)
| EvPoll (instant : Z)
| EvClick (f : ElementFinder)
| EvFocus (f : ElementFinder)
| EvExpect (actual : Promise).

Record World : Type := mkWorld {
  clock : Z;                           (* milliseconds *)
  page : Z -> Dom;                     (* the page at each instant *)
  latency : positive;                  (* duration of one poll *)
  horizon : nat;                       (* polls observed of a wait that has no deadline *)
  defaultExpectationTimeout : JsVal;   (* global.defaultExpectationTimeout *)
  trace : list Event
}.

Definition dom (w : World) : Dom := page w (clock w).

Definition log (ev : Event) (w : World) : World :=
  mkWorld (clock w) (page w) (latency w) (horizon w)
          (defaultExpectationTimeout w) (trace w ++ [ev]).

Definition advance (w : World) : World :=
  mkWorld (clock w + Zpos (latency w)) (page w) (latency w) (horizon w)
          (defaultExpectationTimeout w) (trace w).

(** Code that talks to the browser: a state-passing computation. *)
Definition M (A : Type) : Type := World -> A * World.

Definition ret {A} (a : A) : M A := fun w => (a, w).

Definition bind {A B} (m : M A) (k : A -> M B) : M B :=
  fun w => let (a, w1) := m w in k a w1.

Notation "x <- m ;; k" := (bind m (fun x => k))
  (at level 61, m at next level, right associativity).
Notation "m ;;; k" := (bind m (fun _ => k))
  (at level 61, right associativity).

(** Reads the page as it is now. *)
Definition read {A} (g : Dom -> A) : M A := fun w => (g (dom w), w).

Definition emit (ev : Event) : M unit := fun w => (tt, log ev w).

(** ** The automation client

    The external collaborator of the spec: it locates elements, reads their
    state, performs user actions and waits. *)

Definition By_css (selector : Selector) : Locator :=
  match selector with
  | Css s => ByCss (JStr s)
  | Finder _ => ByCss (JStr "[object Object]")
  | Omitted => ByCss JUndefined
  end.

Definition query (d : Dom) (l : Locator) : list Element :=
  match l with
  | ByCss (JStr s) => d s
  | ByCss _ => []
  end.

Definition noSuchElement : Error := WebDriverError "no such element".

Fixpoint assoc (k : string) (l : list (string * string)) : option string :=
  match l with
  | [] => None
  | (k', v) :: r => if (k =? k')%string then Some v else assoc k r
  end.

Module ElementFinderApi.
(** [finder.locator()] *)
Definition locator (f : ElementFinder) : Locator :=
  match f with ElementBy l | FirstWithText l _ => l end.

(** The element the finder stands for on page [d]:
    [element(locator)] is the first match, and
    [element.all(locator).filter(text equals expectedText).first()] the
    first match with that text. *)
Definition resolve (f : ElementFinder) (d : Dom) : option Element :=
  match f with
  | ElementBy l => hd_error (query d l)
  | FirstWithText l t =>
      hd_error (filter (fun e => R.equals (JStr (el_text e)) t) (query d l))
  end.

Definition on_element (f : ElementFinder) (g : Element -> JsVal) (d : Dom) : Promise :=
  match resolve f d with
  | Some e => Fulfilled (g e)
  | None => Rejected noSuchElement
  end.

Definition isPresent (f : ElementFinder) (d : Dom) : Promise :=
  Fulfilled (JBool (match resolve f d with Some _ => true | None => false end)).
Definition isDisplayed f := on_element f (fun e => JBool (el_displayed e)).
Definition isEnabled f := on_element f (fun e => JBool (el_enabled e)).
Definition isSelected f := on_element f (fun e => JBool (el_selected e)).
Definition getText f := on_element f (fun e => JStr (el_text e)).
Definition getAttribute f (name : string) :=
  on_element f (fun e => match assoc name (el_attributes e) with
                         | Some v => JStr v
                         | None => JNull
                         end).

(** A user action succeeds on an element that is there and visible. *)
Definition act (f : ElementFinder) (d : Dom) : Promise :=
  match resolve f d with
  | Some e => if el_displayed e then Fulfilled JUndefined
              else Rejected (WebDriverError "element not interactable")
  | None => Rejected noSuchElement
  end.

Definition click (f : ElementFinder) : M Promise :=
  emit (EvClick f) ;;; read (act f).

(** An element finder has the methods of a web element, and [focus] is
    not one of them: calling a method that is not there throws a
    [TypeError], and nothing reaches the browser. *)
Definition missing_method (f : ElementFinder) (name : string) : M Promise :=
  ret (Rejected (TypeError (name ++ " is not a function"))).
End ElementFinderApi.

(** [protractor.ExpectedConditions] *)
Module EC.
Definition presenceOf (f : ElementFinder) : M Promise :=
  read (ElementFinderApi.isPresent f).

(** [EC.and(a, b)]: [b] is called only when [a] gave [true]; the result
    is a boolean. *)
Definition and (a b : M Promise) : M Promise :=
  pa <- a ;;
  match pa with
  | Fulfilled va =>
      if R.equals va (JBool true)
      then pb <- b ;; ret (then1 pb (fun vb => JBool (R.equals vb (JBool true))))
      else ret (Fulfilled (JBool false))
  | other => ret other
  end.
End EC.

(** [new webdriver.Condition(description, fn)] *)
Record WdCondition : Type := mkCondition {
  description : string;
  fn : M Promise
}.

Module browser.

(** Modelled from the spec: the timeout of [browser.wait]. It is a
    deadline when it is a positive number of milliseconds; a wait without
    one never expires. *)
Definition deadline (timeout : JsVal) : option Z :=
  match timeout with
  | JNum n => if 0 <? n then Some n else None
  | _ => None
  end.

(** Modelled from the spec: the polls of [browser.wait] are bounded by the
    timeout. The number of polls that start before [ms] milliseconds have
    elapsed, one poll every [lat] milliseconds, is the least [n] with
    [ms <= n * lat]. *)
Definition polls_within (ms : Z) (lat : positive) : nat :=
  Z.to_nat ((ms + Zpos lat - 1) / Zpos lat).

(** Modelled from the spec: the loop of [browser.wait], which "polls
    browser state until a condition holds or a timeout elapses". [n] more
    polls of [fn], then [expiry]. A poll is recorded, evaluates [fn] on
    the page as it is and takes [latency] milliseconds; the first truthy
    value resolves the wait, and a poll that is rejected or does not
    settle ends it. *)
Fixpoint poll (n : nat) (expiry : Promise) (fn : M Promise) (w : World)
  : Promise * World :=
  match n with
  | O => (expiry, w)
  | S k =>
      let (p, w1) := fn (log (EvPoll (clock w)) w) in
      let w2 := advance w1 in
      match p with
      | Fulfilled v => if truthy v then (Fulfilled v, w2) else poll k expiry fn w2
      | other => (other, w2)
      end
  end.

(** Modelled from the spec: [browser.wait(fn, timeout, message)], the wait
    engine of the automation client, which is not among the sources. It
    "polls a Condition against live browser state with a timeout, failing
    with a descriptive error on expiry": the error carries [message], the
    description of what was waited for. What the library writes around it
    (the time that has elapsed) is not modelled. *)
Definition wait_fn (fn : M Promise) (timeout : JsVal) (message : option string)
  : M Promise := fun w =>
  let w0 := log (EvWait timeout message) w in
  match deadline timeout with
  | Some ms =>
      poll (polls_within ms (latency w0))
           (Rejected (TimeoutError (match message with Some m => m | None => "" end)))
           fn w0
  | None => poll (horizon w0) Pending fn w0
  end.

(** [browser.wait(condition, timeout)] for a [webdriver.Condition]: its
    description is the message. *)
Definition wait (c : WdCondition) (timeout : JsVal) : M Promise :=
  wait_fn (fn c) timeout (Some (description c)).

End browser.

(** The global [expect] of the test framework: an assertion about [actual]. *)
Record Assertion : Type := mkAssertion { actual : Promise }.

Definition expect (p : Promise) : M Assertion :=
  emit (EvExpect p) ;;; ret (mkAssertion p).

(** The assertion succeeds when what it is about was fulfilled. *)
Definition succeeds (a : Assertion) : bool :=
  match actual a with Fulfilled _ => true | _ => false end.

(** ** Collaborators inside the repository *)

Module ElementUtil.

(** Modelled from the spec: [ElementUtil.elementFinder(selector)] of
    [element-util.js], which is not among the sources: the "locate element"
    primitive. An element finder is used as it is, anything else is looked
    up as a CSS selector. *)
Definition finder_of (selector : Selector) : ElementFinder :=
  match selector with
  | Finder f => f
  | other => ElementBy (By_css other)
  end.

Definition elementFinder (selector : Selector) : M ElementFinder :=
  emit (EvLocate selector) ;;; ret (finder_of selector).

End ElementUtil.

Module ActionUtil.

(** Modelled from the spec: [ActionUtil.execute(action)] of
    [action-util.js], which is not among the sources: runs the action in
    its turn and gives its promise. *)
Definition execute (action : M Promise) : M Promise := action.

(** Modelled from the spec: [ActionUtil.expectExecutedAction(action)] of
    [action-util.js], which is not among the sources: it "wraps Wait Engine
    results into assertions", the action is executed and its result is what
    the assertion is about. *)
Definition expectExecutedAction (action : M Promise) : M Assertion :=
  p <- execute action ;; expect p.

(** Modelled from the spec: the order of what [ActionUtil.execute]
    schedules. What is scheduled behind an expectation runs when the task
    of that expectation was fulfilled. Behind a task that failed, or that
    has not ended, it is never run: nothing of it reaches the browser and
    its promise stays pending. *)
Definition after (previous : Assertion) (next : M Assertion) : M Assertion :=
  if succeeds previous then next else expectExecutedAction (ret Pending).

End ActionUtil.

(** A condition of the DSL: a predicate on a located element. *)
Definition ConditionFn : Type := ElementFinder -> Dom -> Promise.

Module Condition.

(** Modelled from the spec: the class [Condition] of [condition.js], which
    is not among the sources: "pure predicate constructors (checkbox state,
    visibility, text match, element count)". Each gives a boolean, false
    when the element is not there. *)
Definition predicate (g : Element -> bool) : ConditionFn := fun f d =>
  Fulfilled (JBool (match ElementFinderApi.resolve f d with
                    | Some e => g e
                    | None => false
                    end)).

(** Modelled from the spec: [Condition.present], the element is in the DOM. *)
Definition present : ConditionFn := predicate (fun _ => true).

(** Modelled from the spec: [Condition.displayed], visibility. *)
Definition displayed : ConditionFn := predicate el_displayed.

(** Modelled from the spec: [Condition.enabled]. *)
Definition enabled : ConditionFn := predicate el_enabled.

(** Modelled from the spec: [Condition.clickable], an element the user can
    click: visible and enabled. *)
Definition clickable : ConditionFn :=
  predicate (fun e => el_displayed e && el_enabled e).

(** Modelled from the spec: [Condition.checkboxChecked(checked)], checkbox
    state. *)
Definition checkboxChecked (checked : bool) : ConditionFn :=
  predicate (fun e => Bool.eqb (el_selected e) checked).

(** Modelled from the spec: [Condition.textEquals(text)], text match. *)
Definition textEquals (text : JsVal) : ConditionFn :=
  predicate (fun e => R.equals (JStr (el_text e)) text).

Fixpoint includes (sub s : string) : bool :=
  String.prefix sub s ||
  match s with
  | EmptyString => false
  | String _ r => includes sub r
  end.

(** Modelled from the spec: [Condition.textContains(text)], text match on a
    chunk of the text. *)
Definition textContains (text : JsVal) : ConditionFn :=
  predicate (fun e => includes (toString text) (el_text e)).

(** Modelled from the spec: [Condition.count(selector, expectedCount)],
    element count: the number of elements that match the selector is the
    expected one. The element it is given plays no part. *)
Definition count (selector : Selector) (expectedCount : JsVal) : ConditionFn :=
  fun _ d =>
    Fulfilled (JBool (R.equals (JNum (Z.of_nat (List.length (query d (By_css selector)))))
                               expectedCount)).

(** Modelled from the spec: [Condition.not(condition)], the composition of
    a predicate with negation. *)
Definition not (condition : ConditionFn) : ConditionFn := fun f d =>
  then1 (condition f d) (fun v => JBool (negb (truthy v))).

End Condition.

(** ** White space and [parseInt]

    A text is the sequence of the bytes of its UTF-8 encoding. *)

(** The white space and line terminators of JavaScript, by their
    encodings of one, two and three bytes: U+0009 to U+000D and U+0020;
    U+00A0; U+1680, U+2000 to U+200A, U+2028, U+2029, U+202F, U+205F,
    U+3000 and U+FEFF. *)
Definition is_space (c : ascii) : bool :=
  match N_of_ascii c with
  | 9%N | 10%N | 11%N | 12%N | 13%N | 32%N => true
  | _ => false
  end.

Definition is_space2 (a b : ascii) : bool :=
  (N_of_ascii a =? 194)%N && (N_of_ascii b =? 160)%N.

Definition is_space3 (a b c : ascii) : bool :=
  let x := N_of_ascii a in
  let y := N_of_ascii b in
  let z := N_of_ascii c in
  ((x =? 225) && (y =? 154) && (z =? 128)
   || (x =? 226) && (y =? 128)
      && ((128 <=? z) && (z <=? 138) || (z =? 168) || (z =? 169) || (z =? 175))
   || (x =? 226) && (y =? 129) && (z =? 159)
   || (x =? 227) && (y =? 128) && (z =? 128)
   || (x =? 239) && (y =? 187) && (z =? 191))%N.

(** What follows one white space at the head of the bytes, if there is
    one. *)
Definition strip_space (l : list ascii) : option (list ascii) :=
  match l with
  | a :: r1 =>
      if is_space a then Some r1
      else match r1 with
           | b :: r2 =>
               if is_space2 a b then Some r2
               else match r2 with
                    | c :: r3 => if is_space3 a b c then Some r3 else None
                    | [] => None
                    end
           | [] => None
           end
  | [] => None
  end.

(** The same for bytes in reverse order: the white space is at the end of
    the text. *)
Definition strip_space_rev (l : list ascii) : option (list ascii) :=
  match l with
  | a :: r1 =>
      if is_space a then Some r1
      else match r1 with
           | b :: r2 =>
               if is_space2 b a then Some r2
               else match r2 with
                    | c :: r3 => if is_space3 c b a then Some r3 else None
                    | [] => None
                    end
           | [] => None
           end
  | [] => None
  end.

(** Strips as long as there is something to strip; each strip takes at
    least one byte, so [n] strips are enough for [n] bytes. *)
Fixpoint skip_with (strip : list ascii -> option (list ascii)) (n : nat)
         (l : list ascii) : list ascii :=
  match n with
  | O => l
  | S k =>
      match strip l with
      | Some r => skip_with strip k r
      | None => l
      end
  end.

Definition skip_space (l : list ascii) : list ascii :=
  skip_with strip_space (List.length l) l.

Definition skip_space_rev (l : list ascii) : list ascii :=
  skip_with strip_space_rev (List.length l) l.

(** The text without its leading white space. *)
Definition skip_spaces (s : string) : string :=
  string_of_list_ascii (skip_space (list_ascii_of_string s)).

Definition digit_of (c : ascii) : option Z :=
  let n := Z.of_N (N_of_ascii c) in
  if (48 <=? n) && (n <=? 57) then Some (n - 48) else None.

(** The longest prefix of decimal digits, as an integer; [acc] is what has
    been read so far. *)
Fixpoint digits (acc : option Z) (s : string) : option Z :=
  match s with
  | String c r =>
      match digit_of c with
      | Some d => digits (Some (10 * match acc with Some a => a | None => 0 end + d)) r
      | None => acc
      end
  | EmptyString => acc
  end.

(** The number for the integer that was read, [NaN] when no digit was. *)
Definition number_of_digits (negative : bool) (n : option Z) : JsNumber :=
  match n with
  | Some n => round_double (if negative then - n else n) 0
  | None => NaN
  end.

(** [parseInt(v, 10)]: leading white space, an optional sign, then decimal
    digits up to the first other character; [NaN] without a digit. *)
Definition parseInt_10 (v : JsVal) : JsNumber :=
  match skip_spaces (toString v) with
  | String "-" r => number_of_digits true (digits None r)
  | String "+" r => number_of_digits false (digits None r)
  | s => number_of_digits false (digits None s)
  end.

(** [global.defaultExpectationTimeout] *)
Definition global_defaultExpectationTimeout : M JsVal :=
  fun w => (defaultExpectationTimeout w, w).

Definition nl : string := String (ascii_of_nat 10) EmptyString.


(** ** Strings: [trim], [indexOf], [split], and callbacks that throw *)

(** [s.trim()]: the text without the white space at its two ends. *)
Definition String_trim (s : string) : string :=
  string_of_list_ascii
    (rev (skip_space_rev (rev (skip_space (list_ascii_of_string s))))).

(** [s.indexOf(value)], counted from [i]: the position of the first
    occurrence, or -1. *)
Fixpoint indexOf_from (i : Z) (value s : string) : Z :=
  if String.prefix value s then i
  else match s with
       | EmptyString => -1
       | String _ r => indexOf_from (i + 1) value r
       end.

Definition String_indexOf (s value : string) : Z := indexOf_from 0 value s.

(** [s.split(sep)] for a separator of one character: the pieces between
    the separators, at least one. *)
Fixpoint String_split (sep : ascii) (s : string) : list string :=
  match s with
  | EmptyString => [EmptyString]
  | String c r =>
      if Ascii.eqb c sep then EmptyString :: String_split sep r
      else match String_split sep r with
           | piece :: pieces => String c piece :: pieces
           | [] => [String c EmptyString]
           end
  end.

(** [R.trim(v)] is [v.trim()]: it throws on what is not a string. *)
Definition R_trim (v : JsVal) : Error + JsVal :=
  match v with
  | JStr s => inr (JStr (String_trim s))
  | _ => inl (TypeError "trim is not a function of the value")
  end.

(** [R.includes(x, list)] *)
Definition R_includes (x : string) (l : list string) : bool :=
  existsb (String.eqb x) l.

(** ** wait-condition.js *)

Module WaitCondition.

Definition check (message : string) (condition : ConditionFn) (selector : Selector)
  : M Promise :=
  let finder := ElementUtil.elementFinder selector in
  f0 <- finder ;;
  let errorMessage :=
    message ++ ". Selector: " ++ Locator_toString (ElementFinderApi.locator f0) in
  let cond := mkCondition errorMessage (f <- finder ;; read (condition f)) in
  timeout <- global_defaultExpectationTimeout ;;
  browser.wait cond (js_or timeout (JNum 10000)).

Definition checkboxChecked (selector : Selector) (checked : bool) : M Promise :=
  let condition := Condition.checkboxChecked checked in
  check "for checkbox is selected" condition selector.

(** [check] is called without the selector. *)
Definition count (selector : Selector) (expectedCount : JsVal) : M Promise :=
  let condition := Condition.count selector expectedCount in
  check ("for element's count to be '" ++ toString expectedCount ++ "'") condition Omitted.

Definition disabled (selector : Selector) : M Promise :=
  check "For element to be disabled" (Condition.not Condition.enabled) selector.

Definition displayed (selector : Selector) : M Promise :=
  check "For element to be displayed" Condition.displayed selector.

Definition enabled (selector : Selector) : M Promise :=
  check "For element to be enabled" Condition.enabled selector.

Definition notDisplayed (selector : Selector) : M Promise :=
  let condition := Condition.not Condition.displayed in
  check "For element to be displayed" condition selector.

Definition notPresent (selector : Selector) : M Promise :=
  let condition := Condition.not Condition.present in
  check "For element to be absent" condition selector.

Definition present (selector : Selector) : M Promise :=
  check "For element to be present" Condition.present selector.

Definition presentWithText (selector : Selector) (expectedText : JsVal) : M Promise :=
  let foundElement := FirstWithText (By_css selector) expectedText in
  let msg := "For element having text " ++ toString expectedText ++ " to be present" in
  check msg Condition.present (Finder foundElement).

Definition textContains (selector : Selector) (text : JsVal) : M Promise :=
  let condition := Condition.textContains text in
  check (nl ++ "    for" ++ nl ++ "    element" ++ nl ++ "    's text to contain '"
            ++ toString text ++ nl ++ "    '")
        condition selector.

Definition textEquals (selector : Selector) (text : JsVal) : M Promise :=
  let condition := Condition.textEquals text in
  check ("for element's text to be '" ++ toString text ++ "'") condition selector.

End WaitCondition.

(** ** expectation.js *)

Module Expectation.

Definition checkCondition (selector : Selector) (message : string)
           (condition : ConditionFn) : M Assertion :=
  ActionUtil.expectExecutedAction (WaitCondition.check message condition selector).

Definition checkPresenceAndCondition (selector : Selector)
           (condition : M Promise) : M Assertion :=
  elementFinder <- ElementUtil.elementFinder selector ;;
  ActionUtil.expectExecutedAction
    (timeout <- global_defaultExpectationTimeout ;;
     browser.wait_fn (EC.and (EC.presenceOf elementFinder) condition)
                     timeout None).

(** The condition may throw. In [!R.isNil(actualValue) &&
    condition(actualValue)] it is called on what is not [null] only. *)
Definition attributeCondition (selector : Selector) (attrName : string)
           (condition : JsVal -> Error + JsVal) : M Assertion :=
  elementFinder <- ElementUtil.elementFinder selector ;;
  let conditionHolds : M Promise :=
    read (fun d =>
            then2_try (ElementFinderApi.getAttribute elementFinder attrName d)
                      (fun actualValue =>
                         if R.isNil actualValue then inr (JBool false)
                         else condition actualValue)
                      R.F) in
  checkPresenceAndCondition selector conditionHolds.

Definition attributeValueNotLessThan (selector : Selector) (attrName : string)
           (minValue : JsNumber) : M Assertion :=
  let condition := fun actualValue =>
    inr (JBool (R.gte (parseInt_10 actualValue) minValue)) in
  attributeCondition selector attrName condition.


Definition checkboxChecked (selector : Selector) (checked : bool) : M Assertion :=
  ActionUtil.expectExecutedAction (WaitCondition.checkboxChecked selector checked).

Definition clickable (selector : Selector) : M Assertion :=
  checkCondition selector "for element to be clickable" Condition.clickable.

(** [browser.wait(conditionFunction, timeout, message, timeout)]: the wait
    takes three arguments. *)
Definition condition (conditionFunction : Dom -> Promise) (message : option string)
  : M Assertion :=
  ActionUtil.expectExecutedAction
    (timeout <- global_defaultExpectationTimeout ;;
     browser.wait_fn (read conditionFunction) timeout message).

Definition count (selector : Selector) (expectedCount : JsVal) : M Assertion :=
  let countIs : Dom -> Promise := fun d =>
    Fulfilled (JBool (R.equals (JNum (Z.of_nat (List.length (query d (By_css selector)))))
                               expectedCount)) in
  condition countIs None.

Definition disabled (selector : Selector) : M Assertion :=
  ActionUtil.expectExecutedAction (WaitCondition.disabled selector).

Definition displayed (selector : Selector) : M Assertion :=
  ActionUtil.expectExecutedAction (WaitCondition.displayed selector).

Definition emptyText (selector : Selector) : M Assertion :=
  ActionUtil.expectExecutedAction (WaitCondition.textEquals selector (JStr "")).

Definition enabled (selector : Selector) : M Assertion :=
  ActionUtil.expectExecutedAction (WaitCondition.enabled selector).

Definition notDisplayed (selector : Selector) : M Assertion :=
  ActionUtil.expectExecutedAction (WaitCondition.notDisplayed selector).

Definition notPresent (selector : Selector) : M Assertion :=
  ActionUtil.expectExecutedAction (WaitCondition.notPresent selector).

Definition present (selector : Selector) : M Assertion :=
  ActionUtil.expectExecutedAction (WaitCondition.present selector).

(** [WaitCondition.presentWithText] is called with the selector alone, so
    its [expectedText] is [undefined]. *)
Definition presentWithText (selector : Selector) : M Assertion :=
  ActionUtil.expectExecutedAction (WaitCondition.presentWithText selector JUndefined).

Definition textContains (selector : Selector) (text : JsVal) : M Assertion :=
  ActionUtil.expectExecutedAction (WaitCondition.textContains selector text).

Definition textEquals (selector : Selector) (text : JsVal) : M Assertion :=
  ActionUtil.expectExecutedAction (WaitCondition.textEquals selector text).

Definition textNotEqual (selector : Selector) (text : JsVal) : M Assertion :=
  let msg := "for element's text not to be '" ++ toString text ++ "'" in
  checkCondition selector msg (Condition.not (Condition.textEquals text)).

(** The remaining expectations of the file. *)

Definition attributeEquals (selector : Selector) (attribute : string) (text : string)
  : M Assertion :=
  elementFinder <- ElementUtil.elementFinder selector ;;
  let textIs : M Promise :=
    read (fun d =>
            then_try (ElementFinderApi.getAttribute elementFinder attribute d)
                     (fun actualText =>
                        match R_trim actualText with
                        | inl e => inl e
                        | inr a =>
                            match R_trim (JStr text) with
                            | inl e => inl e
                            | inr b => inr (JBool (R.equals a b))
                            end
                        end)) in
  checkPresenceAndCondition selector textIs.

Definition attributeNotEqual (selector : Selector) (attribute : string) (text : string)
  : M Assertion :=
  elementFinder <- ElementUtil.elementFinder selector ;;
  let textIs : M Promise :=
    read (fun d =>
            then_try (ElementFinderApi.getAttribute elementFinder attribute d)
                     (fun actualText =>
                        match R_trim actualText with
                        | inl e => inl e
                        | inr a =>
                            match R_trim (JStr text) with
                            | inl e => inl e
                            | inr b => inr (JBool (negb (R.equals a b)))
                            end
                        end)) in
  checkPresenceAndCondition selector textIs.

(** [actualValue.indexOf] is the method of strings; what is not a string
    has none. *)
Definition attributeContainsValue (selector : Selector) (attrName : string)
           (value : string) : M Assertion :=
  let condition := fun actualValue =>
    match actualValue with
    | JStr s => inr (JBool (R.gt (Finite (String_indexOf s value) 0) (Finite (-1) 0)))
    | _ => inl (TypeError "indexOf is not a function")
    end in
  attributeCondition selector attrName condition.

Definition attributeDoesntContainValue (selector : Selector) (attrName : string)
           (value : string) : M Assertion :=
  let condition := fun actualValue =>
    match actualValue with
    | JStr s => inr (JBool (R.equals (JNum (String_indexOf s value)) (JNum (-1))))
    | _ => inl (TypeError "indexOf is not a function")
    end in
  attributeCondition selector attrName condition.

Definition countAtLeast (selector : Selector) (expectedCount : JsNumber) : M Assertion :=
  let countIs : Dom -> Promise := fun d =>
    Fulfilled (JBool (R.gte (Finite (Z.of_nat (List.length (query d (By_css selector)))) 0)
                            expectedCount)) in
  condition countIs None.

(** [elementFilter()] locates the element anew each time the wait calls
    [hasAttr]. *)
Definition hasAttribute (selector : Selector) (attrName : string) : M Assertion :=
  let elementFilter := ElementUtil.elementFinder selector in
  let hasAttr : M Promise :=
    f <- elementFilter ;;
    read (fun d =>
            then2 (ElementFinderApi.getAttribute f attrName d)
                  (fun attrValue => JBool (negb (R.isNil attrValue)))
                  R.F) in
  checkPresenceAndCondition selector hasAttr.

(** No wait: the attribute is read once. [classes.split] throws when the
    element has no [class] attribute. *)
Definition hasClassName (selector : Selector) (className : string) : M Promise :=
  element <- ElementUtil.elementFinder selector ;;
  read (fun d =>
          then_try (ElementFinderApi.getAttribute element "class" d)
                   (fun classes =>
                      match classes with
                      | JStr s => inr (JBool (R_includes className (String_split " " s)))
                      | _ => inl (TypeError "split is not a function of the value")
                      end)).

Definition hasNoAttribute (selector : Selector) (attrName : string) : M Assertion :=
  let elementFilter := ElementUtil.elementFinder selector in
  let hasNoAttr : M Promise :=
    f <- elementFilter ;;
    read (fun d =>
            then2 (ElementFinderApi.getAttribute f attrName d)
                  (fun attrValue => JBool (R.isNil attrValue))
                  R.F) in
  checkPresenceAndCondition selector hasNoAttr.

(** The expectation on the attribute is scheduled behind the one on the
    presence. *)
Definition readOnly (selector : Selector) : M Assertion :=
  previous <- present selector ;;
  ActionUtil.after previous (attributeContainsValue selector "readonly" "true").

End Expectation.

(** ** The class [Action] *)

Module Action.

(** The click is scheduled behind the clickable expectation. *)
Definition click (selector : Selector) : M Assertion :=
  previous <- Expectation.clickable selector ;;
  ActionUtil.after previous
    (ActionUtil.expectExecutedAction
       (f <- ElementUtil.elementFinder selector ;; ElementFinderApi.click f)).

Definition clickIfClickable (selector : Selector) : M Assertion :=
  finder <- ElementUtil.elementFinder selector ;;
  p <- ActionUtil.execute
         (c <- ElementFinderApi.click finder ;; ret (then2 c R.T R.T)) ;;
  expect p.

(** [ElementUtil.elementFinder(selector).focus()] calls a method that an
    element finder does not have. *)
Definition focus (selector : Selector) : M Assertion :=
  previous <- Expectation.clickable selector ;;
  ActionUtil.after previous
    (ActionUtil.expectExecutedAction
       (f <- ElementUtil.elementFinder selector ;;
        ElementFinderApi.missing_method f "focus")).

End Action.

(** ** Vocabulary for the statements *)

(** What [WaitCondition.check] polls: the element is located again, then
    the condition is evaluated on it. *)
Definition located (condition : ConditionFn) (selector : Selector) : M Promise :=
  f <- ElementUtil.elementFinder selector ;; read (condition f).

(** The instant at which poll number [k] of a wait started in [w] begins. *)
Definition instant (w : World) (k : nat) : Z :=
  clock w + Z.of_nat k * Zpos (latency w).

(** What the condition gives at poll number [k]. *)
Definition outcome_at (condition : ConditionFn) (selector : Selector)
           (w : World) (k : nat) : Promise :=
  condition (ElementUtil.finder_of selector) (page w (instant w k)).

(** The world after one poll of [located], and after [k] of them. *)
Definition one_poll (selector : Selector) (w : World) : World :=
  advance (log (EvLocate selector) (log (EvPoll (clock w)) w)).

Fixpoint polled (selector : Selector) (k : nat) (w : World) : World :=
  match k with
  | O => w
  | S j => polled selector j (one_poll selector w)
  end.

(** The events of [k] polls that start at instant [t], [lat] apart. *)
Fixpoint poll_events (selector : Selector) (k : nat) (t : Z) (lat : Z) : list Event :=
  match k with
  | O => []
  | S j => EvPoll t :: EvLocate selector :: poll_events selector j (t + lat) lat
  end.

(** The error message that [WaitCondition.check] composes. *)
Definition errorMessage_of (message : string) (selector : Selector) : string :=
  message ++ ". Selector: "
          ++ Locator_toString (ElementFinderApi.locator (ElementUtil.finder_of selector)).

(** The timeout that [WaitCondition.check] passes to the wait. *)
Definition check_timeout (w : World) : JsVal :=
  js_or (defaultExpectationTimeout w) (JNum 10000).

(** The world in which the polls of [WaitCondition.check] start. *)
Definition check_start (message : string) (selector : Selector) (w : World) : World :=
  log (EvWait (check_timeout w) (Some (errorMessage_of message selector)))
      (log (EvLocate selector) w).

(** [a] occurs in [s] and [b] occurs after it. *)
Definition followed_by (a b s : string) : Prop :=
  exists before between after, s = before ++ a ++ between ++ b ++ after.

(** A user action. *)
Definition user_action (ev : Event) : bool :=
  match ev with
  | EvClick _ | EvFocus _ => true
  | _ => false
  end.

(** Every poll in [evs] begins at an instant in [[from, deadline)]. *)
Definition polls_between (from deadline : Z) (evs : list Event) : Prop :=
  Forall (fun ev => match ev with
                    | EvPoll i => from <= i < deadline
                    | _ => True
                    end) evs.

(** The trace of [w'] continues the trace of [w]. *)
Definition extends (w w' : World) : Prop :=
  exists tail, trace w' = (trace w ++ tail)%list.

(** The claim about the expectations, in the words of the spec: the wait
    is performed, its result is wrapped into an assertion, and nothing
    else happens. *)
Definition wrapped_into_assertion (wait : M Promise) : M Assertion := fun w =>
  let (p, w1) := wait w in (mkAssertion p, log (EvExpect p) w1).

(** What [EC.and(a, b)] gives on a page, for [a] and [b] that read the
    page. *)
Definition both (a b : Dom -> Promise) : Dom -> Promise := fun d =>
  match a d with
  | Fulfilled va =>
      if R.equals va (JBool true)
      then then1 (b d) (fun vb => JBool (R.equals vb (JBool true)))
      else Fulfilled (JBool false)
  | other => other
  end.

(** What the attribute of the element gives to a condition that may
    throw. *)
Definition attribute_meets (selector : Selector) (attrName : string)
           (condition : JsVal -> Error + JsVal) : Dom -> Promise := fun d =>
  then2_try (ElementFinderApi.getAttribute (ElementUtil.finder_of selector) attrName d)
            (fun actualValue =>
               if R.isNil actualValue then inr (JBool false) else condition actualValue)
            R.F.

(** What [Expectation.attributeCondition] polls: the element is present
    and its attribute is there and meets the condition. *)
Definition attribute_holds (selector : Selector) (attrName : string)
           (condition : JsVal -> Error + JsVal) : Dom -> Promise :=
  both (ElementFinderApi.isPresent (ElementUtil.finder_of selector))
       (attribute_meets selector attrName condition).

(** The integer that a number is, when it is a finite integer. *)
Definition integer_value (x : JsNumber) : option Z :=
  match x with
  | Finite m e => if 0 <=? e then Some (m * 2 ^ e) else None
  | _ => None
  end.


(** The number that [Finite m e] stands for. *)
Definition rational (m e : Z) : Q := (inject_Z m * 2 ^ e)%Q.

(** [a <= b] as numbers: the order of the rationals with the two
    infinities at its ends; [NaN] is not compared. *)
Definition number_le (a b : JsNumber) : Prop :=
  match a, b with
  | NaN, _ | _, NaN => False
  | Infinity true, _ => True
  | _, Infinity false => True
  | Finite m1 e1, Finite m2 e2 => (rational m1 e1 <= rational m2 e2)%Q
  | _, _ => False
  end.

(** The browser is the same in [w'] as in [w]; the traces may differ. *)
Definition same_browser (w w' : World) : Prop :=
  clock w' = clock w /\ page w' = page w /\ latency w' = latency w
  /\ horizon w' = horizon w
  /\ defaultExpectationTimeout w' = defaultExpectationTimeout w.

(** [fn] gives what [g] reads on the page and leaves the browser as it
    is. *)
Definition observes (fn : M Promise) (g : Dom -> Promise) : Prop :=
  forall w, fst (fn w) = g (dom w) /\ same_browser w (snd (fn w)).

(** The events without the assertions: what the automation client is
    asked. *)
Definition browser_events (evs : list Event) : list Event :=
  filter (fun ev => match ev with EvExpect _ => false | _ => true end) evs.

(** The world after one poll of a function that only reads the page, and
    after [k] of them. *)
Definition tick (w : World) : World := advance (log (EvPoll (clock w)) w).

Fixpoint ticked (k : nat) (w : World) : World :=
  match k with
  | O => w
  | S j => ticked j (tick w)
  end.

(** The events of [k] such polls that start at instant [t], [lat] apart. *)
Fixpoint tick_events (k : nat) (t : Z) (lat : Z) : list Event :=
  match k with
  | O => []
  | S j => EvPoll t :: tick_events j (t + lat) lat
  end.

(** What [checkPresenceAndCondition] polls, for a condition that reads
    the page. *)
Definition present_and (selector : Selector) (condition : Dom -> Promise)
  : Dom -> Promise :=
  both (ElementFinderApi.isPresent (ElementUtil.finder_of selector)) condition.

(** [sub] occurs in [s]. *)
Definition occurs_in (sub s : string) : Prop :=
  exists before after, s = before ++ sub ++ after.

(** The character [c] occurs in [s]. *)
Fixpoint has_char (c : ascii) (s : string) : bool :=
  match s with
  | EmptyString => false
  | String x r => Ascii.eqb x c || has_char c r
  end.

(** The element that [selector] resolves to on the page at instant [t]. *)
Definition element_at (selector : Selector) (w : World) (t : Z) : option Element :=
  ElementFinderApi.resolve (ElementUtil.finder_of selector) (page w t).

(** The number of elements that match [selector] on the page at [t]. *)
Definition count_at (selector : Selector) (w : World) (t : Z) : Z :=
  Z.of_nat (List.length (query (page w t) (By_css selector))).

(** The events of [k] polls that start at instant [t], [lat] apart, when
    every poll leaves the events [extra] behind it. *)
Fixpoint polls_with (extra : list Event) (k : nat) (t : Z) (lat : Z) : list Event :=
  match k with
  | O => []
  | S j => EvPoll t :: (extra ++ polls_with extra j (t + lat) lat)%list
  end.

(** At one of the polls that start before the deadline [T] the element is
    there and [g] holds of it. *)
Definition met_before (selector : Selector) (g : Element -> bool)
           (w : World) (T : Z) : Prop :=
  exists k e, (k < browser.polls_within T (latency w))%nat
              /\ element_at selector w (instant w k) = Some e
              /\ g e = true.

(** What an expectation does under a deadline when it waits for [g] to
    hold of the element and describes the wait by [message]: it succeeds
    exactly when [g] is met at a poll before the deadline; when it does
    not succeed it is rejected by the timeout of the wait, whose text has
    [message] followed by the locator; and the browser is asked to locate
    the element, to start the wait with the composed description, and
    then only to poll, locating the element at each poll. *)
Definition waits_for (expectation : M Assertion) (message : string)
           (g : Element -> bool) (selector : Selector) : Prop :=
  forall w T,
    browser.deadline (check_timeout w) = Some T ->
    (succeeds (fst (expectation w)) = true <-> met_before selector g w T)
    /\ (succeeds (fst (expectation w)) = false ->
        exists m,
          actual (fst (expectation w)) = Rejected (TimeoutError m)
          /\ followed_by message
               (Locator_toString (ElementFinderApi.locator (ElementUtil.finder_of selector)))
               m)
    /\ exists polls,
         (polls <= browser.polls_within T (latency w))%nat
         /\ browser_events (trace (snd (expectation w)))
            = (browser_events (trace w)
                 ++ [EvLocate selector;
                     EvWait (check_timeout w) (Some (errorMessage_of message selector))]
                 ++ poll_events selector polls (clock w) (Zpos (latency w)))%list.

(** ** A page to run the DSL on *)

Definition row : Element :=
  mkElement "Hello" true true false [("scrollHeight", "101")].

(** [.row] matches two elements, and a third one from instant 600 on;
    nothing else matches. *)
Definition growing_page : Z -> Dom := fun t s =>
  if (s =? ".row")%string
  then (if t <? 600 then [row; row] else [row; row; row])
  else [].

(** The clock at 0, a poll every 250 ms, and the given global timeout. *)
Definition example_world (timeout : JsVal) : World :=
  mkWorld 0 growing_page 250 5 timeout [].

(** A page of one cell that spans one column, and a global timeout of one
    second. *)
Definition cell : Element := mkElement "" true true false [("colspan", "1")].

Definition table_world : World :=
  mkWorld 0 (fun _ _ => [cell]) 250 5 (JNum 1000) [].

(** ** The polling loop *)

Lemma instant_one_poll selector w k :
  instant (one_poll selector w) k = instant w (S k).
Proof. unfold instant, one_poll; simpl. lia. Qed.

Lemma outcome_at_one_poll condition selector w k :
  outcome_at condition selector (one_poll selector w) k
  = outcome_at condition selector w (S k).
Proof.
  unfold outcome_at. rewrite instant_one_poll. reflexivity.
Qed.

Lemma located_run condition selector w :
  located condition selector (log (EvPoll (clock w)) w)
  = (outcome_at condition selector w 0,
     log (EvLocate selector) (log (EvPoll (clock w)) w)).
Proof.
  unfold located, outcome_at, instant, bind, ElementUtil.elementFinder, emit, read, ret, dom, bind.
  simpl. f_equal. f_equal. f_equal. lia.
Qed.

Lemma poll_step condition selector n expiry w :
  browser.poll (S n) expiry (located condition selector) w
  = match outcome_at condition selector w 0 with
    | Fulfilled v =>
        if truthy v then (Fulfilled v, one_poll selector w)
        else browser.poll n expiry (located condition selector) (one_poll selector w)
    | other => (other, one_poll selector w)
    end.
Proof.
  cbn [browser.poll]. rewrite located_run. fold (one_poll selector w).
  destruct (outcome_at condition selector w 0); reflexivity.
Qed.

Lemma fails_inv p : fails p = true -> exists v, p = Fulfilled v /\ truthy v = false.
Proof.
  destruct p; simpl; try discriminate.
  intros H. exists v. split; [reflexivity|]. now destruct (truthy v).
Qed.

(** When the condition is falsy at each of the [n] polls, the wait expires
    after exactly [n] polls. *)
Lemma poll_expires condition selector expiry : forall n w,
  (forall k, (k < n)%nat -> fails (outcome_at condition selector w k) = true) ->
  browser.poll n expiry (located condition selector) w
  = (expiry, polled selector n w).
Proof.
  induction n as [|n IH]; intros w H.
  - reflexivity.
  - rewrite poll_step.
    destruct (fails_inv _ (H 0%nat ltac:(lia))) as [v [-> Hv]]. rewrite Hv.
    simpl polled. apply IH. intros k Hk.
    rewrite outcome_at_one_poll. apply H. lia.
Qed.

(** The first poll at which the condition is truthy resolves the wait with
    that value, and no poll follows. *)
Lemma poll_resolves condition selector expiry v : forall k n w,
  (k < n)%nat ->
  (forall j, (j < k)%nat -> fails (outcome_at condition selector w j) = true) ->
  outcome_at condition selector w k = Fulfilled v -> truthy v = true ->
  browser.poll n expiry (located condition selector) w
  = (Fulfilled v, polled selector (S k) w).
Proof.
  induction k as [|k IH]; intros n w Hn Hbefore Hk Hv.
  - destruct n as [|n]; [lia|]. rewrite poll_step, Hk, Hv. reflexivity.
  - destruct n as [|n]; [lia|]. rewrite poll_step.
    destruct (fails_inv _ (Hbefore 0%nat ltac:(lia))) as [v0 [-> Hv0]]. rewrite Hv0.
    change (polled selector (S (S k)) w) with (polled selector (S k) (one_poll selector w)).
    apply IH; [lia| |rewrite outcome_at_one_poll; exact Hk|exact Hv].
    intros j Hj. rewrite outcome_at_one_poll. apply Hbefore. lia.
Qed.

(** Whatever the condition does, a wait of at most [n] polls ends after
    some [m <= n] of them. *)
Lemma poll_shape condition selector expiry : forall n w,
  exists m, (m <= n)%nat /\
    snd (browser.poll n expiry (located condition selector) w) = polled selector m w.
Proof.
  induction n as [|n IH]; intros w.
  - exists 0%nat. split; [lia | reflexivity].
  - rewrite poll_step.
    destruct (outcome_at condition selector w 0) as [|v|e].
    + exists 1%nat. split; [lia | reflexivity].
    + destruct (truthy v).
      * exists 1%nat. split; [lia | reflexivity].
      * destruct (IH (one_poll selector w)) as [m [Hm Heq]].
        exists (S m). split; [lia | exact Heq].
    + exists 1%nat. split; [lia | reflexivity].
Qed.

Lemma polled_frame selector : forall k w,
  page (polled selector k w) = page w
  /\ latency (polled selector k w) = latency w
  /\ horizon (polled selector k w) = horizon w
  /\ defaultExpectationTimeout (polled selector k w) = defaultExpectationTimeout w.
Proof.
  induction k as [|k IH]; intros w; simpl; [tauto|].
  destruct (IH (one_poll selector w)) as (-> & -> & -> & ->). simpl. tauto.
Qed.

Lemma clock_polled selector : forall k w,
  clock (polled selector k w) = instant w k.
Proof.
  induction k as [|k IH]; intros w; simpl.
  - unfold instant. simpl. lia.
  - rewrite IH. apply instant_one_poll.
Qed.

Lemma trace_polled selector : forall k w,
  trace (polled selector k w)
  = (trace w ++ poll_events selector k (clock w) (Zpos (latency w)))%list.
Proof.
  induction k as [|k IH]; intros w; simpl.
  - now rewrite app_nil_r.
  - rewrite IH. simpl. rewrite <- !app_assoc. reflexivity.
Qed.

(** Each of [k] polls that start at [t] begins at [t] or later and is over
    by [t + k * lat]. *)
Lemma poll_events_bounded selector lat : 0 < lat -> forall k t,
  Forall (fun ev => match ev with
                    | EvPoll i => t <= i /\ i + lat <= t + Z.of_nat k * lat
                    | _ => True
                    end)
         (poll_events selector k t lat).
Proof.
  intros Hlat. induction k as [|k IH]; intros t; simpl poll_events.
  - constructor.
  - rewrite Nat2Z.inj_succ.
    constructor; [nia|]. constructor; [exact I|].
    eapply Forall_impl; [|apply (IH (t + lat))].
    intros [ | | i | | | ]; cbv beta iota; auto. nia.
Qed.

Lemma poll_events_start_no_wait selector lat : forall k t,
  forallb (fun ev => match ev with EvWait _ _ => false | _ => true end)
          (poll_events selector k t lat) = true.
Proof. induction k as [|k IH]; intros t; simpl; auto. Qed.

(** ** The schedule of a wait with a deadline *)

Lemma polls_within_before T lat k :
  (k < browser.polls_within T lat)%nat -> Z.of_nat k * Zpos lat < T.
Proof.
  unfold browser.polls_within. intros H.
  assert (Hq : Z.of_nat k < (T + Zpos lat - 1) / Zpos lat) by lia.
  pose proof (Z.mul_div_le (T + Zpos lat - 1) (Zpos lat) ltac:(lia)).
  nia.
Qed.

Lemma polls_within_covers T lat :
  T <= Z.of_nat (browser.polls_within T lat) * Zpos lat.
Proof.
  unfold browser.polls_within.
  pose proof (Z.mod_pos_bound (T + Zpos lat - 1) (Zpos lat) ltac:(lia)) as Hr.
  pose proof (Z.div_mod (T + Zpos lat - 1) (Zpos lat) ltac:(lia)) as Hq.
  set (q := (T + Zpos lat - 1) / Zpos lat) in *.
  set (r := (T + Zpos lat - 1) mod Zpos lat) in *.
  assert (Hmax : Z.of_nat (Z.to_nat q) = Z.max 0 q) by lia.
  rewrite Hmax.
  destruct (Z.max_spec 0 q) as [[? ->]|[? ->]]; nia.
Qed.

Lemma deadline_inv timeout T :
  browser.deadline timeout = Some T -> timeout = JNum T /\ 0 < T.
Proof.
  destruct timeout; simpl; try discriminate.
  destruct (0 <? n) eqn:E; [|discriminate].
  intros [= <-]. apply Z.ltb_lt in E. auto.
Qed.

(** ** [WaitCondition.check], unfolded *)

Lemma check_run message condition selector w :
  WaitCondition.check message condition selector w
  = match browser.deadline (check_timeout w) with
    | Some ms =>
        browser.poll (browser.polls_within ms (latency w))
                     (Rejected (TimeoutError (errorMessage_of message selector)))
                     (located condition selector)
                     (check_start message selector w)
    | None =>
        browser.poll (horizon w) Pending (located condition selector)
                     (check_start message selector w)
    end.
Proof. reflexivity. Qed.

Lemma outcome_at_check_start condition message selector w k :
  outcome_at condition selector (check_start message selector w) k
  = outcome_at condition selector w k.
Proof. reflexivity. Qed.

Lemma trace_check_start message selector w :
  trace (check_start message selector w)
  = (trace w ++ [EvLocate selector;
                 EvWait (check_timeout w) (Some (errorMessage_of message selector))])%list.
Proof. unfold check_start. simpl. now rewrite <- app_assoc. Qed.

Lemma append_empty_r (s : string) : s ++ "" = s.
Proof. induction s as [|c s IH]; simpl; [reflexivity | now rewrite IH]. Qed.

Lemma string_app_assoc (a b c : string) : (a ++ b) ++ c = a ++ b ++ c.
Proof. induction a as [|x a IH]; simpl; [reflexivity | now rewrite IH]. Qed.

Lemma followed_by_intro a between b : followed_by a b (a ++ between ++ b).
Proof.
  exists "", between, "". simpl. now rewrite append_empty_r.
Qed.

(** When the condition is falsy at every instant before the deadline, the
    wait of [check] expires with the composed message. *)
Lemma check_expires message condition selector w T :
  browser.deadline (check_timeout w) = Some T ->
  (forall k, (k < browser.polls_within T (latency w))%nat ->
     fails (outcome_at condition selector w k) = true) ->
  WaitCondition.check message condition selector w
  = (Rejected (TimeoutError (errorMessage_of message selector)),
     polled selector (browser.polls_within T (latency w))
            (check_start message selector w)).
Proof.
  intros HT Hfalsy. rewrite check_run, HT.
  apply poll_expires. intros k Hk. rewrite outcome_at_check_start. auto.
Qed.

Lemma check_resolves message condition selector w T k v :
  browser.deadline (check_timeout w) = Some T ->
  (k < browser.polls_within T (latency w))%nat ->
  (forall j, (j < k)%nat -> fails (outcome_at condition selector w j) = true) ->
  outcome_at condition selector w k = Fulfilled v -> truthy v = true ->
  WaitCondition.check message condition selector w
  = (Fulfilled v, polled selector (S k) (check_start message selector w)).
Proof.
  intros HT Hk Hbefore Hat Hv. rewrite check_run, HT.
  apply poll_resolves; auto.
Qed.

(** C1. For every call [WaitCondition.check(message, condition, selector)]
    under a deadline of [T] milliseconds: when the condition is falsy on
    the located element at every instant before the deadline, the wait is
    rejected with an error whose message is the supplied message, then
    [". Selector: "], then the locator of the element resolved from the
    selector; so the message is followed by the locator in it. *)
Theorem check_expiry_error_describes message condition selector w T :
  browser.deadline (check_timeout w) = Some T ->
  (forall t, clock w <= t < clock w + T ->
     fails (condition (ElementUtil.finder_of selector) (page w t)) = true) ->
  exists e,
    fst (WaitCondition.check message condition selector w) = Rejected e
    /\ error_message e
       = message ++ ". Selector: "
           ++ Locator_toString (ElementFinderApi.locator (ElementUtil.finder_of selector))
    /\ followed_by message
         (Locator_toString (ElementFinderApi.locator (ElementUtil.finder_of selector)))
         (error_message e).
Proof.
  intros HT Hfalsy.
  exists (TimeoutError (errorMessage_of message selector)).
  split; [|split].
  - rewrite (check_expires message condition selector w T HT); [reflexivity|].
    intros k Hk. unfold outcome_at. apply Hfalsy.
    pose proof (polls_within_before _ _ _ Hk). unfold instant. lia.
  - reflexivity.
  - apply followed_by_intro.
Qed.

Lemma check_expiry_error_describes_witness :
  exists e,
    fst (WaitCondition.check "For element to be present" Condition.present
           (Css ".missing") (example_world (JNum 1000))) = Rejected e
    /\ error_message e
       = "For element to be present. Selector: By(css selector, .missing)"
    /\ followed_by "For element to be present" "By(css selector, .missing)"
         (error_message e).
Proof.
  apply (check_expiry_error_describes "For element to be present"
           Condition.present (Css ".missing") (example_world (JNum 1000)) 1000).
  - reflexivity.
  - intros t Ht. reflexivity.
Defined.

(** The polls of a wait of at most [n] polls, [n] being what fits before
    the deadline [T], all begin before the deadline. *)
Lemma polls_before_deadline selector T lat m t :
  (m <= browser.polls_within T lat)%nat ->
  polls_between t (t + T) (poll_events selector m t (Zpos lat)).
Proof.
  intros Hm. unfold polls_between.
  eapply Forall_impl; [|apply (poll_events_bounded selector (Zpos lat) ltac:(lia) m t)].
  intros [ | | i | | | ]; cbv beta iota; auto.
  intros [Hlo Hhi]. split; [exact Hlo|].
  destruct m as [|m]; [simpl in Hhi; lia|].
  pose proof (polls_within_before T lat m ltac:(lia)).
  rewrite Nat2Z.inj_succ in Hhi. nia.
Qed.

Lemma check_trace message condition selector w T :
  browser.deadline (check_timeout w) = Some T ->
  exists m, (m <= browser.polls_within T (latency w))%nat
    /\ snd (WaitCondition.check message condition selector w)
       = polled selector m (check_start message selector w).
Proof.
  intros HT. rewrite check_run, HT. apply poll_shape.
Qed.

Lemma trace_polled_check message selector w m :
  trace (polled selector m (check_start message selector w))
  = (trace w
       ++ [EvLocate selector;
           EvWait (check_timeout w) (Some (errorMessage_of message selector))]
       ++ poll_events selector m (clock w) (Zpos (latency w)))%list.
Proof.
  rewrite trace_polled, trace_check_start, <- app_assoc. reflexivity.
Qed.

(** C2. For every call [WaitCondition.check(message, condition, selector)]
    under a deadline of [T] milliseconds, with [n] the number of polls
    that fit before it:
    - the trace grows by the first location, the start of the wait, and
      then, for each poll, the poll and a new location of the element
      from the selector; there are at most [n] polls and each begins
      before the deadline;
    - the wait resolves at the first poll at which the condition gives a
      truthy value, with that value, and no poll follows;
    - when the condition is falsy at all [n] polls, the wait is rejected
      after exactly [n] polls, once the deadline has passed. *)
Theorem check_polls_until_holds_or_expires message condition selector w T :
  browser.deadline (check_timeout w) = Some T ->
  (exists m, (m <= browser.polls_within T (latency w))%nat
     /\ trace (snd (WaitCondition.check message condition selector w))
        = (trace w
             ++ [EvLocate selector;
                 EvWait (check_timeout w) (Some (errorMessage_of message selector))]
             ++ poll_events selector m (clock w) (Zpos (latency w)))%list
     /\ polls_between (clock w) (clock w + T)
          (poll_events selector m (clock w) (Zpos (latency w))))
  /\ (forall k v,
        (k < browser.polls_within T (latency w))%nat ->
        (forall j, (j < k)%nat -> fails (outcome_at condition selector w j) = true) ->
        outcome_at condition selector w k = Fulfilled v -> truthy v = true ->
        fst (WaitCondition.check message condition selector w) = Fulfilled v
        /\ trace (snd (WaitCondition.check message condition selector w))
           = (trace w
                ++ [EvLocate selector;
                    EvWait (check_timeout w) (Some (errorMessage_of message selector))]
                ++ poll_events selector (S k) (clock w) (Zpos (latency w)))%list
        /\ clock (snd (WaitCondition.check message condition selector w))
           = instant w (S k))
  /\ ((forall k, (k < browser.polls_within T (latency w))%nat ->
         fails (outcome_at condition selector w k) = true) ->
      fst (WaitCondition.check message condition selector w)
        = Rejected (TimeoutError (errorMessage_of message selector))
      /\ trace (snd (WaitCondition.check message condition selector w))
         = (trace w
              ++ [EvLocate selector;
                  EvWait (check_timeout w) (Some (errorMessage_of message selector))]
              ++ poll_events selector (browser.polls_within T (latency w))
                             (clock w) (Zpos (latency w)))%list
      /\ clock w + T <= clock (snd (WaitCondition.check message condition selector w))).
Proof.
  intros HT. split; [|split].
  - destruct (check_trace message condition selector w T HT) as [m [Hm Heq]].
    exists m. split; [exact Hm|]. split.
    + rewrite Heq. apply trace_polled_check.
    + apply polls_before_deadline. exact Hm.
  - intros k v Hk Hbefore Hat Hv.
    rewrite (check_resolves message condition selector w T k v HT Hk Hbefore Hat Hv).
    cbn [fst snd]. split; [reflexivity|]. split.
    + apply trace_polled_check.
    + rewrite clock_polled. reflexivity.
  - intros Hfalsy.
    rewrite (check_expires message condition selector w T HT Hfalsy).
    cbn [fst snd]. split; [reflexivity|]. split.
    + apply trace_polled_check.
    + rewrite clock_polled. unfold instant. cbn [check_start log clock latency].
      pose proof (polls_within_covers T (latency w)). lia.
Qed.

Lemma check_polls_until_holds_or_expires_witness :
  fst (WaitCondition.check "for three rows" (Condition.count (Css ".row") (JNum 3))
         (Css ".row") (example_world (JNum 1000)))
  = Fulfilled (JBool true)
  /\ trace (snd (WaitCondition.check "for three rows"
                   (Condition.count (Css ".row") (JNum 3))
                   (Css ".row") (example_world (JNum 1000))))
     = [EvLocate (Css ".row");
        EvWait (JNum 1000) (Some "for three rows. Selector: By(css selector, .row)");
        EvPoll 0; EvLocate (Css ".row"); EvPoll 250; EvLocate (Css ".row");
        EvPoll 500; EvLocate (Css ".row"); EvPoll 750; EvLocate (Css ".row")]
  /\ clock (snd (WaitCondition.check "for three rows"
                   (Condition.count (Css ".row") (JNum 3))
                   (Css ".row") (example_world (JNum 1000))))
     = 1000.
Proof.
  destruct (check_polls_until_holds_or_expires "for three rows"
              (Condition.count (Css ".row") (JNum 3)) (Css ".row")
              (example_world (JNum 1000)) 1000 eq_refl) as (_ & Hresolves & _).
  apply (Hresolves 3%nat (JBool true)).
  - vm_compute. lia.
  - intros j Hj.
    destruct j as [|[|[|j]]]; [reflexivity | reflexivity | reflexivity | lia].
  - reflexivity.
  - reflexivity.
Defined.

(** ** Traces only grow *)

Lemma extends_refl w : extends w w.
Proof. exists []. now rewrite app_nil_r. Qed.

Lemma extends_trans w1 w2 w3 : extends w1 w2 -> extends w2 w3 -> extends w1 w3.
Proof.
  intros [t1 H1] [t2 H2]. exists (t1 ++ t2)%list.
  now rewrite H2, H1, app_assoc.
Qed.

Lemma extends_log ev w : extends w (log ev w).
Proof. now exists [ev]. Qed.

Lemma extends_advance w : extends w (advance w).
Proof. exists []. simpl. now rewrite app_nil_r. Qed.

Lemma poll_extends fn :
  (forall w, extends w (snd (fn w))) ->
  forall n expiry w, extends w (snd (browser.poll n expiry fn w)).
Proof.
  intros Hfn. induction n as [|n IH]; intros expiry w.
  - apply extends_refl.
  - cbn [browser.poll].
    pose proof (Hfn (log (EvPoll (clock w)) w)) as Hstep.
    destruct (fn (log (EvPoll (clock w)) w)) as [p w1]. cbn [snd] in Hstep.
    assert (Hw2 : extends w (advance w1)).
    { eapply extends_trans; [apply extends_log|].
      eapply extends_trans; [exact Hstep | apply extends_advance]. }
    destruct p as [|v|e]; cbn [snd]; auto.
    destruct (truthy v); cbn [snd]; auto.
    eapply extends_trans; [exact Hw2 | apply IH].
Qed.

Lemma wait_fn_trace fn timeout message w :
  (forall w, extends w (snd (fn w))) ->
  exists tail,
    trace (snd (browser.wait_fn fn timeout message w))
    = (trace w ++ EvWait timeout message :: tail)%list.
Proof.
  intros Hfn. unfold browser.wait_fn.
  destruct (browser.deadline timeout);
    match goal with
    | |- context [browser.poll ?n ?e fn ?w0] =>
        destruct (poll_extends fn Hfn n e w0) as [tail Htail]
    end;
    exists tail; rewrite Htail; simpl; now rewrite <- app_assoc.
Qed.

Lemma check_shape message condition selector w :
  exists m,
    snd (WaitCondition.check message condition selector w)
    = polled selector m (check_start message selector w).
Proof.
  rewrite check_run.
  destruct (browser.deadline (check_timeout w));
    match goal with
    | |- context [browser.poll ?n ?e _ _] =>
        destruct (poll_shape condition selector e n (check_start message selector w))
          as [m [_ Hm]]
    end; exists m; exact Hm.
Qed.

Lemma expectExecutedAction_run action w :
  ActionUtil.expectExecutedAction action w
  = (mkAssertion (fst (action w)), log (EvExpect (fst (action w))) (snd (action w))).
Proof.
  unfold ActionUtil.expectExecutedAction, ActionUtil.execute, bind, expect, emit, ret.
  destruct (action w) as [p w1]. reflexivity.
Qed.

(** C8. For every call to [WaitCondition.check], the timeout given to the
    wait is the global [defaultExpectationTimeout] when it is truthy and
    10000 otherwise; [Expectation.condition] gives the wait the global as
    it is. *)
Theorem check_timeout_falls_back_condition_does_not
        message condition selector conditionFunction opt_message w :
  (exists tail,
     trace (snd (WaitCondition.check message condition selector w))
     = (trace w
          ++ [EvLocate selector;
              EvWait (if truthy (defaultExpectationTimeout w)
                      then defaultExpectationTimeout w
                      else JNum 10000)
                     (Some (errorMessage_of message selector))]
          ++ tail)%list
     /\ forallb (fun ev => match ev with EvWait _ _ => false | _ => true end) tail
        = true)
  /\ (exists tail,
        trace (snd (Expectation.condition conditionFunction opt_message w))
        = (trace w ++ [EvWait (defaultExpectationTimeout w) opt_message] ++ tail)%list).
Proof.
  split.
  - destruct (check_shape message condition selector w) as [m Hm].
    exists (poll_events selector m (clock w) (Zpos (latency w))). split.
    + rewrite Hm. apply trace_polled_check.
    + apply poll_events_start_no_wait.
  - unfold Expectation.condition. rewrite expectExecutedAction_run.
    cbn [snd log trace].
    unfold bind, global_defaultExpectationTimeout.
    destruct (wait_fn_trace (read conditionFunction) (defaultExpectationTimeout w)
                            opt_message w) as [tail Htail].
    { intros w'. apply extends_refl. }
    eexists. rewrite Htail. rewrite <- app_assoc. simpl. reflexivity.
Qed.

Lemma poll_events_no_user_action selector lat : forall k t,
  existsb user_action (poll_events selector k t lat) = false.
Proof. induction k as [|k IH]; intros t; simpl; auto. Qed.

(** C10. [Action.clickIfClickable(selector)]: the outcome of the click is
    mapped to [true] when it is fulfilled and when it is rejected, so what
    the returned expectation is about is fulfilled with [true], whether
    the click succeeded or not. *)
Theorem clickIfClickable_never_rejects (selector : Selector) (w : World) :
  (forall v, then2 (Fulfilled v) R.T R.T = Fulfilled (JBool true))
  /\ (forall e, then2 (Rejected e) R.T R.T = Fulfilled (JBool true))
  /\ actual (fst (Action.clickIfClickable selector w)) = Fulfilled (JBool true)
  /\ succeeds (fst (Action.clickIfClickable selector w)) = true
  /\ trace (snd (Action.clickIfClickable selector w))
     = (trace w ++ [EvLocate selector;
                    EvClick (ElementUtil.finder_of selector);
                    EvExpect (Fulfilled (JBool true))])%list.
Proof.
  assert (Hact : forall f d, then2 (ElementFinderApi.act f d) R.T R.T
                             = Fulfilled (JBool true)).
  { intros f d. unfold ElementFinderApi.act.
    destruct (ElementFinderApi.resolve f d) as [e|]; [destruct (el_displayed e)|];
      reflexivity. }
  split; [reflexivity|]. split; [reflexivity|].
  unfold Action.clickIfClickable, ActionUtil.execute, bind, ElementUtil.elementFinder,
    ElementFinderApi.click, expect, emit, read, ret, bind, succeeds.
  cbn [fst snd actual log trace]. rewrite Hact.
  repeat split. rewrite <- !app_assoc. reflexivity.
Qed.

(** ** When a wait resolves *)

Lemma holds_not_fails p : holds p = true -> fails p = true -> False.
Proof. destruct p; simpl; try discriminate. destruct (truthy v); discriminate. Qed.

Lemma holds_inv p : holds p = true -> exists v, p = Fulfilled v /\ truthy v = true.
Proof. destruct p; simpl; try discriminate. intros H. now exists v. Qed.

(** Among [n] polls that all give a value, either none holds or there is a
    first one that does. *)
Lemma first_poll_that_holds (o : nat -> Promise) : forall n,
  (forall k, (k < n)%nat -> holds (o k) = true \/ fails (o k) = true) ->
  (forall k, (k < n)%nat -> fails (o k) = true)
  \/ (exists k, (k < n)%nat /\ holds (o k) = true
                /\ forall j, (j < k)%nat -> fails (o j) = true).
Proof.
  induction n as [|n IH]; intros Hval.
  - left. intros k Hk. lia.
  - destruct IH as [Hnone | [k (Hk & Hh & Hb)]].
    + intros k Hk. apply Hval. lia.
    + destruct (Hval n ltac:(lia)) as [Hh | Hf].
      * right. exists n. auto.
      * left. intros k Hk.
        destruct (Nat.eq_dec k n) as [->|]; [exact Hf | apply Hnone; lia].
    + right. exists k. split; [lia | auto].
Qed.

Lemma check_resolves_iff message condition selector w T :
  browser.deadline (check_timeout w) = Some T ->
  (forall k, (k < browser.polls_within T (latency w))%nat ->
     holds (outcome_at condition selector w k) = true
     \/ fails (outcome_at condition selector w k) = true) ->
  (exists v, fst (WaitCondition.check message condition selector w) = Fulfilled v)
  <-> (exists k, (k < browser.polls_within T (latency w))%nat
                 /\ holds (outcome_at condition selector w k) = true).
Proof.
  intros HT Hval.
  destruct (first_poll_that_holds (outcome_at condition selector w) _ Hval)
    as [Hnone | [k (Hk & Hh & Hb)]].
  - split.
    + intros [v Hv].
      rewrite (check_expires message condition selector w T HT Hnone) in Hv.
      discriminate.
    + intros [k [Hk Hh]]. destruct (holds_not_fails _ Hh (Hnone k Hk)).
  - split.
    + intros _. exists k. auto.
    + intros _. destruct (holds_inv _ Hh) as [v [Hat Hv]]. exists v.
      now rewrite (check_resolves message condition selector w T k v HT Hk Hb Hat Hv).
Qed.

Lemma not_holds_iff_fails (c : ConditionFn) f d :
  holds (Condition.not c f d) = fails (c f d).
Proof. unfold Condition.not. destruct (c f d); reflexivity. Qed.

Lemma not_predicate_settles g f d :
  holds (Condition.not (Condition.predicate g) f d) = true
  \/ fails (Condition.not (Condition.predicate g) f d) = true.
Proof.
  unfold Condition.not, Condition.predicate. simpl.
  destruct (ElementFinderApi.resolve f d) as [e|]; [destruct (g e)|]; simpl; auto.
Qed.

(** A wait on the negation of a predicate resolves exactly when the
    predicate is falsy at one of the polls. *)
Lemma check_not_predicate message g selector w T :
  browser.deadline (check_timeout w) = Some T ->
  (exists v, fst (WaitCondition.check message (Condition.not (Condition.predicate g))
                    selector w) = Fulfilled v)
  <-> (exists k, (k < browser.polls_within T (latency w))%nat
                 /\ fails (outcome_at (Condition.predicate g) selector w k) = true).
Proof.
  intros HT.
  rewrite (check_resolves_iff message _ selector w T HT).
  - split; intros [k [Hk H]]; exists k; split; auto;
      unfold outcome_at in *; rewrite not_holds_iff_fails in *; exact H.
  - intros k _. apply not_predicate_settles.
Qed.

(** C5. For every selector, the negative waits are waits on the negation
    of the positive predicates: [disabled] on [not enabled], [notDisplayed]
    on [not displayed], [notPresent] on [not present]; a negated condition
    holds exactly where the condition is falsy; and so, under a deadline,
    each of the three waits resolves exactly when the positive condition
    is falsy on the located element at one of the polls. *)
Theorem negative_waits_negate (selector : Selector) (w : World) (T : Z) :
  browser.deadline (check_timeout w) = Some T ->
  (WaitCondition.disabled selector
   = WaitCondition.check "For element to be disabled"
       (Condition.not Condition.enabled) selector
   /\ WaitCondition.notDisplayed selector
      = WaitCondition.check "For element to be displayed"
          (Condition.not Condition.displayed) selector
   /\ WaitCondition.notPresent selector
      = WaitCondition.check "For element to be absent"
          (Condition.not Condition.present) selector)
  /\ (forall (c : ConditionFn) f d, holds (Condition.not c f d) = fails (c f d))
  /\ ((exists v, fst (WaitCondition.disabled selector w) = Fulfilled v)
      <-> (exists k, (k < browser.polls_within T (latency w))%nat
                     /\ fails (outcome_at Condition.enabled selector w k) = true))
  /\ ((exists v, fst (WaitCondition.notDisplayed selector w) = Fulfilled v)
      <-> (exists k, (k < browser.polls_within T (latency w))%nat
                     /\ fails (outcome_at Condition.displayed selector w k) = true))
  /\ ((exists v, fst (WaitCondition.notPresent selector w) = Fulfilled v)
      <-> (exists k, (k < browser.polls_within T (latency w))%nat
                     /\ fails (outcome_at Condition.present selector w k) = true)).
Proof.
  intros HT.
  split; [repeat split|].
  split; [exact not_holds_iff_fails|].
  split; [|split]; apply check_not_predicate; exact HT.
Qed.

Lemma negative_waits_negate_witness :
  exists v,
    fst (WaitCondition.notPresent (Css ".missing") (example_world (JNum 1000)))
    = Fulfilled v.
Proof.
  destruct (negative_waits_negate (Css ".missing") (example_world (JNum 1000)) 1000
              eq_refl) as (_ & _ & _ & _ & Hiff).
  apply Hiff. exists 0%nat. split; [vm_compute; lia | reflexivity].
Defined.

(** ** Waits on a page that does not change *)

Lemma polls_within_pos T lat : 0 < T -> (0 < browser.polls_within T lat)%nat.
Proof.
  intros HT. pose proof (polls_within_covers T lat).
  destruct (browser.polls_within T lat); [simpl in *; lia | lia].
Qed.

(** When the polled function gives [p] at every instant, the wait ends
    with [p], unless [p] is a falsy value: then it expires. *)
Lemma poll_read_constant (g : Dom -> Promise) (p : Promise) expiry : forall n w,
  (forall t, g (page w t) = p) ->
  fst (browser.poll n expiry (read g) w)
  = match n with
    | O => expiry
    | S _ => if fails p then expiry else p
    end.
Proof.
  induction n as [|n IH]; intros w Hg.
  - reflexivity.
  - cbn [browser.poll]. unfold read at 1. unfold dom. cbn [log clock page].
    rewrite Hg.
    destruct p as [|v|e]; try reflexivity.
    cbn [fails]. destruct (truthy v) eqn:Hv; cbn [negb]; [reflexivity|].
    rewrite IH by (intros t; apply Hg).
    destruct n; [reflexivity|]. cbn [fails]. now rewrite Hv.
Qed.

Lemma wait_fn_read_constant (g : Dom -> Promise) (p : Promise) message w T :
  browser.deadline (defaultExpectationTimeout w) = Some T ->
  (forall t, g (page w t) = p) ->
  fst (browser.wait_fn (read g) (defaultExpectationTimeout w) message w)
  = if fails p
    then Rejected (TimeoutError (match message with Some m => m | None => "" end))
    else p.
Proof.
  intros HT Hg. unfold browser.wait_fn. rewrite HT.
  rewrite (poll_read_constant g p) by (intros t; apply Hg).
  destruct (deadline_inv _ _ HT) as [_ Hpos].
  pose proof (polls_within_pos T (latency (log (EvWait (defaultExpectationTimeout w) message) w)) Hpos).
  destruct (browser.polls_within _ _); [lia | reflexivity].
Qed.

(** ** Where the code leaves the documented behaviour *)

Lemma check_never_holds message condition selector w T :
  browser.deadline (check_timeout w) = Some T ->
  (forall t, clock w <= t < clock w + T ->
     fails (condition (ElementUtil.finder_of selector) (page w t)) = true) ->
  fst (WaitCondition.check message condition selector w)
  = Rejected (TimeoutError (errorMessage_of message selector)).
Proof.
  intros HT Hfalsy.
  rewrite (check_expires message condition selector w T HT); [reflexivity|].
  intros k Hk. unfold outcome_at. apply Hfalsy.
  pose proof (polls_within_before _ _ _ Hk). unfold instant. lia.
Qed.

(** C3. [WaitCondition.count(selector, expectedCount)] calls [check]
    without the selector: when the count never becomes the expected one
    before the deadline, the error names the expected count and the
    locator of no selector at all, the same for every selector. *)
Theorem count_expiry_error_omits_selector selector expectedCount w T :
  browser.deadline (check_timeout w) = Some T ->
  (forall t, clock w <= t < clock w + T ->
     R.equals (JNum (Z.of_nat (List.length (query (page w t) (By_css selector)))))
              expectedCount = false) ->
  fst (WaitCondition.count selector expectedCount w)
  = Rejected (TimeoutError ("for element's count to be '" ++ toString expectedCount
                              ++ "'. Selector: By(css selector, undefined)")).
Proof.
  intros HT Hnever. unfold WaitCondition.count.
  rewrite (check_never_holds _ _ Omitted w T HT).
  - unfold errorMessage_of. cbn [ElementUtil.finder_of By_css ElementFinderApi.locator
                                  Locator_toString toString].
    rewrite !string_app_assoc. reflexivity.
  - intros t Ht. unfold Condition.count. cbn [fails truthy].
    now rewrite (Hnever t Ht).
Qed.

Lemma count_expiry_error_omits_selector_witness :
  fst (WaitCondition.count (Css ".row") (JNum 4) (example_world (JNum 1000)))
  = Rejected (TimeoutError
                "for element's count to be '4'. Selector: By(css selector, undefined)").
Proof.
  apply (count_expiry_error_omits_selector (Css ".row") (JNum 4)
           (example_world (JNum 1000)) 1000).
  - reflexivity.
  - intros t Ht. cbn. destruct (t <? 600); reflexivity.
Defined.

Lemma filter_text_undefined (l : list Element) :
  filter (fun e => R.equals (JStr (el_text e)) JUndefined) l = [].
Proof. induction l as [|e l IH]; simpl; auto. Qed.

(** C7. [Expectation.presentWithText(selector)] calls
    [WaitCondition.presentWithText] with the selector alone: the text
    looked for is [undefined], no element has it, and under a deadline the
    expectation is rejected on every page, also on one that has an element
    with the text the caller has in mind. *)
Theorem presentWithText_expectation_never_holds selector w T :
  browser.deadline (check_timeout w) = Some T ->
  actual (fst (Expectation.presentWithText selector w))
  = Rejected (TimeoutError ("For element having text undefined to be present. Selector: "
                              ++ Locator_toString (By_css selector))).
Proof.
  intros HT. unfold Expectation.presentWithText.
  rewrite expectExecutedAction_run. cbn [fst actual].
  unfold WaitCondition.presentWithText.
  rewrite (check_never_holds _ _ _ w T HT).
  - reflexivity.
  - intros t _. unfold Condition.present, Condition.predicate.
    cbn [ElementUtil.finder_of ElementFinderApi.resolve].
    now rewrite filter_text_undefined.
Qed.

Lemma presentWithText_expectation_never_holds_witness :
  actual (fst (Expectation.presentWithText (Css ".row") (example_world (JNum 1000))))
  = Rejected (TimeoutError
                "For element having text undefined to be present. Selector: By(css selector, .row)")
  /\ fst (WaitCondition.presentWithText (Css ".row") (JStr "Hello")
            (example_world (JNum 1000)))
     = Fulfilled (JBool true).
Proof.
  split.
  - apply (presentWithText_expectation_never_holds (Css ".row")
             (example_world (JNum 1000)) 1000).
    reflexivity.
  - reflexivity.
Defined.

(** ** Polling a function that reads the page *)

Lemma instant_tick w k : instant (tick w) k = instant w (S k).
Proof. unfold instant, tick; simpl. lia. Qed.

Lemma page_tick w : page (tick w) = page w.
Proof. reflexivity. Qed.

Lemma poll_read_step (g : Dom -> Promise) n expiry w :
  browser.poll (S n) expiry (read g) w
  = match g (page w (clock w)) with
    | Fulfilled v =>
        if truthy v then (Fulfilled v, tick w)
        else browser.poll n expiry (read g) (tick w)
    | other => (other, tick w)
    end.
Proof.
  cbn [browser.poll]. unfold read at 1. unfold dom. cbn [log clock page].
  fold (tick w). destruct (g (page w (clock w))); reflexivity.
Qed.

Lemma instant_0 w : instant w 0 = clock w.
Proof. unfold instant. simpl. lia. Qed.

(** A function that is falsy at each of the [n] polls lets the wait
    expire. *)
Lemma poll_read_never (g : Dom -> Promise) expiry : forall n w,
  (forall k, (k < n)%nat -> fails (g (page w (instant w k))) = true) ->
  browser.poll n expiry (read g) w = (expiry, ticked n w).
Proof.
  induction n as [|n IH]; intros w H.
  - reflexivity.
  - rewrite poll_read_step.
    pose proof (H 0%nat ltac:(lia)) as H0. rewrite instant_0 in H0.
    destruct (fails_inv _ H0) as [v [-> Hv]]. rewrite Hv.
    cbn [ticked]. apply IH. intros k Hk.
    rewrite instant_tick, page_tick. apply H. lia.
Qed.

(** A function that always gives a boolean ends the wait with [true] or
    lets it expire. *)
Lemma poll_read_boolean (g : Dom -> Promise) expiry :
  (forall d, exists b, g d = Fulfilled (JBool b)) ->
  forall n w,
    fst (browser.poll n expiry (read g) w) = expiry
    \/ fst (browser.poll n expiry (read g) w) = Fulfilled (JBool true).
Proof.
  intros Hg. induction n as [|n IH]; intros w.
  - left. reflexivity.
  - rewrite poll_read_step.
    destruct (Hg (page w (clock w))) as [[|] ->]; cbn [truthy].
    + right. reflexivity.
    + apply IH.
Qed.

Lemma poll_read_shape (g : Dom -> Promise) expiry : forall n w,
  exists m, (m <= n)%nat /\ snd (browser.poll n expiry (read g) w) = ticked m w.
Proof.
  induction n as [|n IH]; intros w.
  - exists 0%nat. split; [lia | reflexivity].
  - rewrite poll_read_step.
    destruct (g (page w (clock w))) as [|v|e].
    + exists 1%nat. split; [lia | reflexivity].
    + destruct (truthy v).
      * exists 1%nat. split; [lia | reflexivity].
      * destruct (IH (tick w)) as [m [Hm Heq]].
        exists (S m). split; [lia | exact Heq].
    + exists 1%nat. split; [lia | reflexivity].
Qed.

Lemma trace_ticked : forall k w,
  trace (ticked k w)
  = (trace w ++ tick_events k (clock w) (Zpos (latency w)))%list.
Proof.
  induction k as [|k IH]; intros w; simpl.
  - now rewrite app_nil_r.
  - rewrite IH. simpl. rewrite <- !app_assoc. reflexivity.
Qed.

Lemma clock_ticked : forall k w, clock (ticked k w) = instant w k.
Proof.
  induction k as [|k IH]; intros w; simpl.
  - now rewrite instant_0.
  - rewrite IH. apply instant_tick.
Qed.

(** A wait under a deadline on a function that is falsy at every instant
    before the deadline expires with the message of the wait. *)
Lemma wait_fn_never (g : Dom -> Promise) timeout message w T :
  browser.deadline timeout = Some T ->
  (forall t, clock w <= t < clock w + T -> fails (g (page w t)) = true) ->
  fst (browser.wait_fn (read g) timeout message w)
  = Rejected (TimeoutError (match message with Some m => m | None => "" end)).
Proof.
  intros HT Hnever. unfold browser.wait_fn. rewrite HT.
  rewrite poll_read_never; [reflexivity|].
  intros k Hk. cbn [log page]. apply Hnever.
  pose proof (polls_within_before _ _ _ Hk) as Hlt.
  unfold instant. cbn [log clock latency] in *. lia.
Qed.

Lemma wait_fn_boolean (g : Dom -> Promise) timeout message w T :
  browser.deadline timeout = Some T ->
  (forall d, exists b, g d = Fulfilled (JBool b)) ->
  fst (browser.wait_fn (read g) timeout message w)
  = Rejected (TimeoutError (match message with Some m => m | None => "" end))
  \/ fst (browser.wait_fn (read g) timeout message w) = Fulfilled (JBool true).
Proof.
  intros HT Hg. unfold browser.wait_fn. rewrite HT.
  apply poll_read_boolean. exact Hg.
Qed.

(** A wait under a deadline on a function that holds now resolves at the
    first poll. *)
Lemma wait_fn_now (g : Dom -> Promise) timeout message w T v :
  browser.deadline timeout = Some T ->
  g (page w (clock w)) = Fulfilled v -> truthy v = true ->
  browser.wait_fn (read g) timeout message w
  = (Fulfilled v, tick (log (EvWait timeout message) w)).
Proof.
  intros HT Hg Hv. unfold browser.wait_fn. rewrite HT.
  destruct (deadline_inv _ _ HT) as [_ Hpos].
  pose proof (polls_within_pos T (latency (log (EvWait timeout message) w)) Hpos) as Hn.
  destruct (browser.polls_within _ _) as [|n]; [lia|].
  rewrite poll_read_step. cbn [log page clock]. rewrite Hg, Hv. reflexivity.
Qed.

(** A poll that is rejected ends the wait with that rejection. *)
Lemma wait_fn_rejected_now (g : Dom -> Promise) timeout message w T e :
  browser.deadline timeout = Some T ->
  g (page w (clock w)) = Rejected e ->
  browser.wait_fn (read g) timeout message w
  = (Rejected e, tick (log (EvWait timeout message) w)).
Proof.
  intros HT Hg. unfold browser.wait_fn. rewrite HT.
  destruct (deadline_inv _ _ HT) as [_ Hpos].
  pose proof (polls_within_pos T (latency (log (EvWait timeout message) w)) Hpos) as Hn.
  destruct (browser.polls_within _ _) as [|n]; [lia|].
  rewrite poll_read_step. cbn [log page clock]. rewrite Hg. reflexivity.
Qed.

(** ** How a wait of [WaitCondition.check] can end *)

Lemma poll_located_values condition selector expiry :
  (forall f d, exists v, condition f d = Fulfilled v) ->
  forall n w,
    fst (browser.poll n expiry (located condition selector) w) = expiry
    \/ exists v, fst (browser.poll n expiry (located condition selector) w) = Fulfilled v
                 /\ truthy v = true.
Proof.
  intros Hval. induction n as [|n IH]; intros w.
  - left. reflexivity.
  - rewrite poll_step. unfold outcome_at.
    destruct (Hval (ElementUtil.finder_of selector) (page w (instant w 0))) as [v ->].
    destruct (truthy v) eqn:Hv.
    + right. exists v. auto.
    + apply IH.
Qed.

Lemma check_fulfils_or_expires message condition selector w T :
  browser.deadline (check_timeout w) = Some T ->
  (forall f d, exists v, condition f d = Fulfilled v) ->
  fst (WaitCondition.check message condition selector w)
  = Rejected (TimeoutError (errorMessage_of message selector))
  \/ exists v, fst (WaitCondition.check message condition selector w) = Fulfilled v
               /\ truthy v = true.
Proof.
  intros HT Hval. rewrite check_run, HT. apply poll_located_values. exact Hval.
Qed.

Lemma predicate_gives_value g f d : exists v, Condition.predicate g f d = Fulfilled v.
Proof. unfold Condition.predicate. eauto. Qed.

Lemma not_predicate_gives_value g f d :
  exists v, Condition.not (Condition.predicate g) f d = Fulfilled v.
Proof. unfold Condition.not, Condition.predicate. cbn. eauto. Qed.

(** X13. [WaitCondition.check] under a deadline of [T] milliseconds: the
    call is over less than [T] plus one poll after it began, whatever the
    condition does; and for a condition that gives a value at every poll
    it ends in one of two ways, fulfilled with a truthy value of the
    condition, the one it gave on the located element at a poll before
    the deadline, or rejected by the timeout with the composed message. *)
Theorem check_ends_in_time message condition selector w T :
  browser.deadline (check_timeout w) = Some T ->
  (clock w <= clock (snd (WaitCondition.check message condition selector w))
   /\ clock (snd (WaitCondition.check message condition selector w))
      < clock w + T + Zpos (latency w))
  /\ ((forall f d, exists v, condition f d = Fulfilled v) ->
      fst (WaitCondition.check message condition selector w)
      = Rejected (TimeoutError (message ++ ". Selector: "
                                  ++ Locator_toString
                                       (ElementFinderApi.locator
                                          (ElementUtil.finder_of selector))))
      \/ exists v, fst (WaitCondition.check message condition selector w) = Fulfilled v
                   /\ truthy v = true
                   /\ exists k, (k < browser.polls_within T (latency w))%nat
                                /\ condition (ElementUtil.finder_of selector)
                                             (page w (instant w k))
                                   = Fulfilled v).
Proof.
  intros HT. split.
  - destruct (check_trace message condition selector w T HT) as [m [Hm Heq]].
    rewrite Heq, clock_polled. unfold instant. cbn [check_start log clock latency].
    destruct (deadline_inv _ _ HT) as [_ Hpos].
    destruct m as [|m]; [lia|].
    pose proof (polls_within_before T (latency w) m ltac:(lia)).
    rewrite Nat2Z.inj_succ. nia.
  - intros Hval.
    assert (Hsettles : forall k, (k < browser.polls_within T (latency w))%nat ->
               holds (outcome_at condition selector w k) = true
               \/ fails (outcome_at condition selector w k) = true).
    { intros k _. unfold outcome_at.
      destruct (Hval (ElementUtil.finder_of selector) (page w (instant w k))) as [v ->].
      cbn [holds fails]. destruct (truthy v); auto. }
    destruct (first_poll_that_holds (outcome_at condition selector w) _ Hsettles)
      as [Hnone | (k & Hk & Hh & Hb)].
    + left. now rewrite (check_expires message condition selector w T HT Hnone).
    + right. destruct (holds_inv _ Hh) as (v & Hv & Ht). exists v.
      rewrite (check_resolves message condition selector w T k v HT Hk Hb Hv Ht).
      split; [reflexivity|]. split; [exact Ht|]. exists k. split; [exact Hk | exact Hv].
Qed.

Lemma check_ends_in_time_witness :
  clock (snd (WaitCondition.check "for a fourth row"
                (Condition.count (Css ".row") (JNum 4)) (Css ".row")
                (example_world (JNum 900))))
  < 0 + 900 + 250.
Proof.
  destruct (check_ends_in_time "for a fourth row"
              (Condition.count (Css ".row") (JNum 4)) (Css ".row")
              (example_world (JNum 900)) 900 eq_refl) as [[_ H] _].
  exact H.
Defined.

(** X14. The message of a negative wait: whenever
    [WaitCondition.notDisplayed] is rejected under a deadline, its error
    reads "For element to be displayed", the message of a rejected
    [WaitCondition.displayed]; and a rejected
    [WaitCondition.checkboxChecked] reads "for checkbox is selected" also
    when it waited for the box to be unchecked. *)
Theorem negative_waits_reuse_positive_messages selector w T e :
  browser.deadline (check_timeout w) = Some T ->
  (fst (WaitCondition.notDisplayed selector w) = Rejected e ->
   e = TimeoutError ("For element to be displayed. Selector: "
                       ++ Locator_toString
                            (ElementFinderApi.locator (ElementUtil.finder_of selector))))
  /\ (fst (WaitCondition.displayed selector w) = Rejected e ->
      e = TimeoutError ("For element to be displayed. Selector: "
                          ++ Locator_toString
                               (ElementFinderApi.locator (ElementUtil.finder_of selector))))
  /\ (fst (WaitCondition.checkboxChecked selector false w) = Rejected e ->
      e = TimeoutError ("for checkbox is selected. Selector: "
                          ++ Locator_toString
                               (ElementFinderApi.locator (ElementUtil.finder_of selector)))).
Proof.
  intros HT.
  assert (Hgen : forall message condition,
             (forall f d, exists v, condition f d = Fulfilled v) ->
             fst (WaitCondition.check message condition selector w) = Rejected e ->
             e = TimeoutError (errorMessage_of message selector)).
  { intros message condition Hval Hrej.
    destruct (check_fulfils_or_expires message condition selector w T HT Hval)
      as [H | [v [H _]]]; rewrite H in Hrej; [now injection Hrej | discriminate]. }
  split; [|split].
  - apply (Hgen "For element to be displayed" (Condition.not Condition.displayed)).
    intros f d. apply not_predicate_gives_value.
  - apply (Hgen "For element to be displayed" Condition.displayed).
    intros f d. apply predicate_gives_value.
  - apply (Hgen "for checkbox is selected" (Condition.checkboxChecked false)).
    intros f d. apply predicate_gives_value.
Qed.

Lemma negative_waits_reuse_positive_messages_witness :
  exists e,
    fst (WaitCondition.notDisplayed (Css ".row") (example_world (JNum 1000))) = Rejected e
    /\ e = TimeoutError "For element to be displayed. Selector: By(css selector, .row)".
Proof.
  exists (TimeoutError "For element to be displayed. Selector: By(css selector, .row)").
  split; [vm_compute; reflexivity|].
  apply (proj1 (negative_waits_reuse_positive_messages (Css ".row")
                  (example_world (JNum 1000)) 1000
                  (TimeoutError
                     "For element to be displayed. Selector: By(css selector, .row)")
                  eq_refl)).
  vm_compute. reflexivity.
Defined.

(** ** Waiting for an element with a text *)

Lemma hd_error_filter {A} (f : A -> bool) (l : list A) :
  (exists x, hd_error (filter f l) = Some x) <-> (exists x, In x l /\ f x = true).
Proof.
  induction l as [|a l IH]; simpl.
  - split; [intros [x H]; discriminate | intros [x [[] _]]].
  - destruct (f a) eqn:Ha; simpl.
    + split; [intros _; exists a; auto | intros _; exists a; reflexivity].
    + rewrite IH. split.
      * intros [x [Hin Hx]]. exists x. auto.
      * intros [x [[<-|Hin] Hx]]; [congruence | exists x; auto].
Qed.

(** X18. [WaitCondition.presentWithText(selector, expectedText)], under a
    deadline and on a page where the selector keeps matching the same
    elements, resolves exactly when one of these elements has exactly the
    expected text: the comparison is [R.equals] on the text as it is, with
    no trimming. *)
Theorem presentWithText_exact_text selector text w T elements :
  browser.deadline (check_timeout w) = Some T ->
  (forall t, query (page w t) (By_css selector) = elements) ->
  (exists v, fst (WaitCondition.presentWithText selector (JStr text) w) = Fulfilled v)
  <-> (exists e, In e elements /\ el_text e = text).
Proof.
  intros HT Hq. unfold WaitCondition.presentWithText.
  assert (Hout : forall k,
             outcome_at Condition.present
               (Finder (FirstWithText (By_css selector) (JStr text))) w k
             = Fulfilled (JBool (match hd_error
                                         (filter (fun e => R.equals (JStr (el_text e))
                                                                    (JStr text))
                                                 elements)
                                 with Some _ => true | None => false end))).
  { intros k. unfold outcome_at, Condition.present, Condition.predicate.
    cbn [ElementUtil.finder_of ElementFinderApi.resolve]. now rewrite Hq. }
  rewrite (check_resolves_iff _ _ _ w T HT).
  - destruct (deadline_inv _ _ HT) as [_ Hpos].
    pose proof (polls_within_pos T (latency w) Hpos) as Hn.
    pose proof (hd_error_filter (fun e => R.equals (JStr (el_text e)) (JStr text))
                  elements) as Hfilter.
    split.
    + intros [k [_ Hk]]. rewrite Hout in Hk. cbn [holds truthy] in Hk.
      destruct (hd_error _) as [x|] eqn:Hx; [|discriminate].
      destruct (proj1 Hfilter (ex_intro _ x eq_refl)) as [e [Hin He]].
      exists e. split; [exact Hin|]. cbn in He. now apply String.eqb_eq in He.
    + intros [e [Hin He]].
      destruct (proj2 Hfilter) as [x Hx].
      { exists e. split; [exact Hin|]. cbn. now apply String.eqb_eq. }
      exists 0%nat. split; [lia|]. rewrite Hout, Hx. reflexivity.
  - intros k _. rewrite Hout. cbn [holds fails truthy].
    destruct (hd_error _); auto.
Qed.

Lemma presentWithText_exact_text_witness :
  exists v,
    fst (WaitCondition.presentWithText (Css ".row") (JStr "Hello")
           (mkWorld 0 (fun _ _ => [row]) 250 5 (JNum 1000) []))
    = Fulfilled v.
Proof.
  apply (presentWithText_exact_text (Css ".row") "Hello"
           (mkWorld 0 (fun _ _ => [row]) 250 5 (JNum 1000) []) 1000 [row]
           eq_refl (fun _ => eq_refl)).
  exists row. split; [left; reflexivity | reflexivity].
Defined.

(** ** Conditions that call other code while they read the page *)

Lemma same_browser_refl w : same_browser w w.
Proof. unfold same_browser. tauto. Qed.

Lemma same_browser_trans w1 w2 w3 :
  same_browser w1 w2 -> same_browser w2 w3 -> same_browser w1 w3.
Proof.
  unfold same_browser. intros (-> & -> & -> & -> & ->) (-> & -> & -> & -> & ->). tauto.
Qed.

Lemma same_browser_sym w1 w2 : same_browser w1 w2 -> same_browser w2 w1.
Proof. unfold same_browser. intros (-> & -> & -> & -> & ->). tauto. Qed.

Lemma same_browser_log ev w : same_browser w (log ev w).
Proof. unfold same_browser. simpl. tauto. Qed.

Lemma same_browser_dom w w' : same_browser w w' -> dom w' = dom w.
Proof. unfold same_browser, dom. intros (-> & -> & _). reflexivity. Qed.

Lemma same_browser_advance w w' :
  same_browser w w' -> same_browser (advance w) (advance w').
Proof.
  unfold same_browser. simpl. intros (-> & -> & -> & -> & ->). tauto.
Qed.

Lemma observes_read g : observes (read g) g.
Proof. intros w. split; [reflexivity | apply same_browser_refl]. Qed.

(** Locating the element before reading the page changes the trace
    only. *)
Lemma observes_located selector (h : ElementFinder -> Dom -> Promise) :
  observes (f <- ElementUtil.elementFinder selector ;; read (h f))
           (h (ElementUtil.finder_of selector)).
Proof.
  intros w. unfold bind, ElementUtil.elementFinder, emit, ret, read, bind. cbn [fst snd].
  split; [reflexivity | apply same_browser_log].
Qed.

Lemma observes_and a b ga gb :
  observes a ga -> observes b gb -> observes (EC.and a b) (both ga gb).
Proof.
  intros Ha Hb w. unfold EC.and, both, bind.
  destruct (Ha w) as [Hfa Hsa]. destruct (a w) as [pa w1]. cbn [fst snd] in Hfa, Hsa.
  rewrite <- Hfa.
  destruct pa as [|va|ea]; try (split; [reflexivity | exact Hsa]).
  destruct (R.equals va (JBool true)); [|split; [reflexivity | exact Hsa]].
  destruct (Hb w1) as [Hfb Hsb]. destruct (b w1) as [pb w2]. cbn [fst snd] in Hfb, Hsb.
  cbn [ret fst snd]. rewrite Hfb, (same_browser_dom _ _ Hsa).
  split; [reflexivity | eapply same_browser_trans; eassumption].
Qed.

(** Polling such a function ends as polling what it reads. *)
Lemma poll_observes fn g : observes fn g ->
  forall n expiry w w', same_browser w w' ->
    fst (browser.poll n expiry fn w') = fst (browser.poll n expiry (read g) w)
    /\ same_browser (snd (browser.poll n expiry (read g) w))
                    (snd (browser.poll n expiry fn w')).
Proof.
  intros Hobs. induction n as [|n IH]; intros expiry w w' Hsame.
  - split; [reflexivity | exact Hsame].
  - rewrite poll_read_step. cbn [browser.poll].
    destruct (Hobs (log (EvPoll (clock w')) w')) as [Hf Hs].
    destruct (fn (log (EvPoll (clock w')) w')) as [p w1]. cbn [fst snd] in Hf, Hs.
    assert (Hdom : dom (log (EvPoll (clock w')) w') = page w (clock w)).
    { destruct Hsame as (Hc & Hp & _). unfold dom. cbn [log page clock].
      now rewrite Hc, Hp. }
    rewrite Hdom in Hf. rewrite <- Hf.
    assert (Hnext : same_browser (tick w) (advance w1)).
    { unfold tick. apply same_browser_advance.
      eapply same_browser_trans; [|exact Hs].
      eapply same_browser_trans; [apply same_browser_sym, same_browser_log|].
      eapply same_browser_trans; [exact Hsame | apply same_browser_log]. }
    destruct p as [|v|e]; try (split; [reflexivity | exact Hnext]).
    destruct (truthy v); [split; [reflexivity | exact Hnext]|].
    apply IH. exact Hnext.
Qed.

Lemma wait_fn_observes fn g timeout message w :
  observes fn g ->
  fst (browser.wait_fn fn timeout message w)
  = fst (browser.wait_fn (read g) timeout message w)
  /\ same_browser (snd (browser.wait_fn (read g) timeout message w))
                  (snd (browser.wait_fn fn timeout message w)).
Proof.
  intros Hobs. unfold browser.wait_fn.
  destruct (browser.deadline timeout);
    apply (poll_observes fn g Hobs); apply same_browser_refl.
Qed.

(** ** Expectations that wait for presence and a condition *)

Lemma checkPresenceAndCondition_run selector condition w :
  Expectation.checkPresenceAndCondition selector condition w
  = (mkAssertion
       (fst (browser.wait_fn
               (EC.and (EC.presenceOf (ElementUtil.finder_of selector)) condition)
               (defaultExpectationTimeout w) None (log (EvLocate selector) w))),
     log (EvExpect
            (fst (browser.wait_fn
                    (EC.and (EC.presenceOf (ElementUtil.finder_of selector)) condition)
                    (defaultExpectationTimeout w) None (log (EvLocate selector) w))))
         (snd (browser.wait_fn
                 (EC.and (EC.presenceOf (ElementUtil.finder_of selector)) condition)
                 (defaultExpectationTimeout w) None (log (EvLocate selector) w)))).
Proof.
  unfold Expectation.checkPresenceAndCondition.
  unfold bind at 1. unfold ElementUtil.elementFinder, bind, emit, ret. cbn [fst snd].
  rewrite expectExecutedAction_run. reflexivity.
Qed.

(** The result of the expectation is the result of a wait on the pure
    reading [present_and], and the clock ends where that wait ends. *)
Lemma checkPresenceAndCondition_reads selector condition g w :
  observes condition g ->
  actual (fst (Expectation.checkPresenceAndCondition selector condition w))
  = fst (browser.wait_fn (read (present_and selector g))
           (defaultExpectationTimeout w) None (log (EvLocate selector) w))
  /\ clock (snd (Expectation.checkPresenceAndCondition selector condition w))
     = clock (snd (browser.wait_fn (read (present_and selector g))
                     (defaultExpectationTimeout w) None (log (EvLocate selector) w))).
Proof.
  intros Hobs. rewrite checkPresenceAndCondition_run. cbn [fst snd actual log clock].
  destruct (wait_fn_observes
              (EC.and (EC.presenceOf (ElementUtil.finder_of selector)) condition)
              (present_and selector g) (defaultExpectationTimeout w) None
              (log (EvLocate selector) w)) as [Hf Hs].
  { apply observes_and; [apply observes_read | exact Hobs]. }
  split; [exact Hf|]. destruct Hs as (Hc & _). exact Hc.
Qed.

Lemma checkPresenceAndCondition_static selector condition g w T p :
  observes condition g ->
  browser.deadline (defaultExpectationTimeout w) = Some T ->
  (forall t, present_and selector g (page w t) = p) ->
  actual (fst (Expectation.checkPresenceAndCondition selector condition w))
  = if fails p then Rejected (TimeoutError "") else p.
Proof.
  intros Hobs HT Hp.
  rewrite (proj1 (checkPresenceAndCondition_reads selector condition g w Hobs)).
  pose proof (wait_fn_read_constant (present_and selector g) p None
                (log (EvLocate selector) w) T HT) as Hwait.
  cbn [log defaultExpectationTimeout page] in Hwait.
  apply Hwait. exact Hp.
Qed.

Lemma checkPresenceAndCondition_never selector condition g w T :
  observes condition g ->
  browser.deadline (defaultExpectationTimeout w) = Some T ->
  (forall t, clock w <= t < clock w + T ->
     fails (present_and selector g (page w t)) = true) ->
  actual (fst (Expectation.checkPresenceAndCondition selector condition w))
  = Rejected (TimeoutError "").
Proof.
  intros Hobs HT Hp.
  rewrite (proj1 (checkPresenceAndCondition_reads selector condition g w Hobs)).
  rewrite (wait_fn_never _ _ None _ T HT); [reflexivity|].
  intros t Ht. cbn [log page clock] in *. auto.
Qed.

Lemma present_and_absent selector condition d :
  ElementFinderApi.resolve (ElementUtil.finder_of selector) d = None ->
  present_and selector condition d = Fulfilled (JBool false).
Proof.
  intros H. unfold present_and, both, ElementFinderApi.isPresent.
  now rewrite H.
Qed.

Lemma present_and_present selector condition d e :
  ElementFinderApi.resolve (ElementUtil.finder_of selector) d = Some e ->
  present_and selector condition d
  = then1 (condition d) (fun vb => JBool (R.equals vb (JBool true))).
Proof.
  intros H. unfold present_and, both, ElementFinderApi.isPresent.
  now rewrite H.
Qed.

Lemma getAttribute_present selector attrName d e :
  ElementFinderApi.resolve (ElementUtil.finder_of selector) d = Some e ->
  ElementFinderApi.getAttribute (ElementUtil.finder_of selector) attrName d
  = Fulfilled (match assoc attrName (el_attributes e) with
               | Some v => JStr v
               | None => JNull
               end).
Proof.
  intros H. unfold ElementFinderApi.getAttribute, ElementFinderApi.on_element.
  now rewrite H.
Qed.

Lemma bool_eqb_true b : Bool.eqb b true = b.
Proof. now destruct b. Qed.

(** ** Numbers: integers, rounding and comparison *)

Lemma js_le_integers m1 m2 e :
  0 <= e -> js_le (Finite m1 0) (Finite m2 e) = (m1 <=? m2 * 2 ^ e).
Proof.
  intros He. cbn [js_le]. rewrite Z.min_l by lia.
  rewrite Z.sub_diag, Z.sub_0_r, Z.pow_0_r, Z.mul_1_r. reflexivity.
Qed.



(** The comparison of two finite numbers is the comparison of the
    rationals they stand for. *)
Lemma rational_scale m e k :
  k <= e -> (rational m e == inject_Z (m * 2 ^ (e - k)) * 2 ^ k)%Q.
Proof.
  intros Hk. unfold rational.
  rewrite inject_Z_mult, Zpower_Qpower by lia.
  change (inject_Z 2) with 2%Q.
  replace e with ((e - k) + k) at 1 by lia.
  rewrite Qpower_plus by discriminate.
  ring.
Qed.

Lemma js_le_finite m1 e1 m2 e2 :
  js_le (Finite m1 e1) (Finite m2 e2) = true
  <-> (rational m1 e1 <= rational m2 e2)%Q.
Proof.
  cbn [js_le].
  rewrite (rational_scale m1 e1 (Z.min e1 e2)) by lia.
  rewrite (rational_scale m2 e2 (Z.min e1 e2)) by lia.
  rewrite Qmult_le_r by (apply Qpower_0_lt; reflexivity).
  rewrite <- Zle_Qle. apply Z.leb_le.
Qed.

Lemma js_le_number_le a b : js_le a b = true <-> number_le a b.
Proof.
  destruct a as [|[|]|m1 e1], b as [|[|]|m2 e2];
    try apply js_le_finite; cbn; intuition discriminate.
Qed.





(** ** Expectations on attributes *)

Lemma attributeCondition_unfold selector attrName condition w :
  Expectation.attributeCondition selector attrName condition w
  = Expectation.checkPresenceAndCondition selector
      (read (attribute_meets selector attrName condition))
      (log (EvLocate selector) w).
Proof. reflexivity. Qed.

Lemma attributeCondition_actual selector attrName condition w :
  actual (fst (Expectation.attributeCondition selector attrName condition w))
  = fst (browser.wait_fn (read (attribute_holds selector attrName condition))
           (defaultExpectationTimeout w) None
           (log (EvLocate selector) (log (EvLocate selector) w))).
Proof.
  rewrite attributeCondition_unfold.
  apply (proj1 (checkPresenceAndCondition_reads selector _ _
                  (log (EvLocate selector) w) (observes_read _))).
Qed.

Lemma attribute_holds_value selector attrName condition d e value :
  ElementFinderApi.resolve (ElementUtil.finder_of selector) d = Some e ->
  assoc attrName (el_attributes e) = Some value ->
  attribute_holds selector attrName condition d
  = match condition (JStr value) with
    | inr r => Fulfilled (JBool (R.equals r (JBool true)))
    | inl err => Rejected err
    end.
Proof.
  intros He Hv.
  unfold attribute_holds, both, attribute_meets, ElementFinderApi.isPresent,
    ElementFinderApi.getAttribute, ElementFinderApi.on_element.
  rewrite He, Hv. cbn. destruct (condition (JStr value)); reflexivity.
Qed.

Lemma attribute_holds_without selector attrName condition d :
  match ElementFinderApi.resolve (ElementUtil.finder_of selector) d with
  | Some e => assoc attrName (el_attributes e) = None
  | None => True
  end ->
  attribute_holds selector attrName condition d = Fulfilled (JBool false).
Proof.
  unfold attribute_holds, both, attribute_meets, ElementFinderApi.isPresent,
    ElementFinderApi.getAttribute, ElementFinderApi.on_element.
  destruct (ElementFinderApi.resolve (ElementUtil.finder_of selector) d) as [e|];
    [intros -> | intros _]; reflexivity.
Qed.

(** What is polled gives a boolean, or is rejected with what the
    condition threw. *)
Lemma attribute_holds_outcomes selector attrName condition d :
  (exists b, attribute_holds selector attrName condition d = Fulfilled (JBool b))
  \/ exists v err,
       condition v = inl err
       /\ attribute_holds selector attrName condition d = Rejected err.
Proof.
  destruct (ElementFinderApi.resolve (ElementUtil.finder_of selector) d) as [e|] eqn:He.
  - destruct (assoc attrName (el_attributes e)) as [value|] eqn:Hv.
    + rewrite (attribute_holds_value _ _ _ _ e value He Hv).
      destruct (condition (JStr value)) as [err|r] eqn:Hc; [right | left]; eauto.
    + left. exists false. apply attribute_holds_without. now rewrite He.
  - left. exists false. apply attribute_holds_without. now rewrite He.
Qed.

Lemma attributeCondition_constant selector attrName condition w T p :
  browser.deadline (defaultExpectationTimeout w) = Some T ->
  (forall t, attribute_holds selector attrName condition (page w t) = p) ->
  actual (fst (Expectation.attributeCondition selector attrName condition w))
  = if fails p then Rejected (TimeoutError "") else p.
Proof.
  intros HT Hp. rewrite attributeCondition_actual.
  pose proof (wait_fn_read_constant (attribute_holds selector attrName condition) p
                None (log (EvLocate selector) (log (EvLocate selector) w)) T HT) as Hwait.
  cbn [log defaultExpectationTimeout page] in Hwait.
  apply Hwait. exact Hp.
Qed.

(** On a page where the element stays and keeps its attribute, the
    expectation on the attribute succeeds exactly when the condition
    gives [true] on the value. *)
Lemma attributeCondition_static selector attrName condition w T e value r :
  browser.deadline (defaultExpectationTimeout w) = Some T ->
  (forall t, ElementFinderApi.resolve (ElementUtil.finder_of selector) (page w t) = Some e) ->
  assoc attrName (el_attributes e) = Some value ->
  condition (JStr value) = inr r ->
  succeeds (fst (Expectation.attributeCondition selector attrName condition w))
  = R.equals r (JBool true).
Proof.
  intros HT He Hv Hc. unfold succeeds.
  rewrite (attributeCondition_constant selector attrName condition w T
             (Fulfilled (JBool (R.equals r (JBool true)))) HT).
  - cbn [fails truthy]. destruct (R.equals r (JBool true)); reflexivity.
  - intros t. rewrite (attribute_holds_value _ _ _ _ e value (He t) Hv), Hc.
    reflexivity.
Qed.

(** What the condition throws on the value rejects the expectation. *)
Lemma attributeCondition_throws selector attrName condition w T e value err :
  browser.deadline (defaultExpectationTimeout w) = Some T ->
  (forall t, ElementFinderApi.resolve (ElementUtil.finder_of selector) (page w t) = Some e) ->
  assoc attrName (el_attributes e) = Some value ->
  condition (JStr value) = inl err ->
  actual (fst (Expectation.attributeCondition selector attrName condition w))
  = Rejected err.
Proof.
  intros HT He Hv Hc.
  rewrite (attributeCondition_constant selector attrName condition w T
             (Rejected err) HT); [reflexivity|].
  intros t. rewrite (attribute_holds_value _ _ _ _ e value (He t) Hv), Hc.
  reflexivity.
Qed.




(** X1. [Expectation.attributeValueNotLessThan(selector, attrName,
    minValue)], on a page where the element stays and its attribute keeps
    the value [value], succeeds exactly when [minValue] is at most the
    number that [parseInt] reads in [value], as numbers; a value without a
    leading integer does not satisfy it; and for a value that reads as the
    integer [n] and an integer [minValue] it succeeds exactly when
    [minValue <= n]. *)
Theorem attributeValueNotLessThan_at_least selector attrName w T e value :
  browser.deadline (defaultExpectationTimeout w) = Some T ->
  (forall t, element_at selector w t = Some e) ->
  assoc attrName (el_attributes e) = Some value ->
  (forall minValue,
     succeeds (fst (Expectation.attributeValueNotLessThan selector attrName minValue w))
     = true
     <-> number_le minValue (parseInt_10 (JStr value)))
  /\ (forall minValue,
        parseInt_10 (JStr value) = NaN ->
        succeeds (fst (Expectation.attributeValueNotLessThan
                         selector attrName minValue w))
        = false)
  /\ (forall n minValue,
        integer_value (parseInt_10 (JStr value)) = Some n ->
        succeeds (fst (Expectation.attributeValueNotLessThan
                         selector attrName (Finite minValue 0) w))
        = true
        <-> minValue <= n).
Proof.
  intros HT He Hv.
  assert (Hrun : forall minValue,
             succeeds (fst (Expectation.attributeValueNotLessThan
                              selector attrName minValue w))
             = js_le minValue (parseInt_10 (JStr value))).
  { intros minValue. unfold Expectation.attributeValueNotLessThan.
    rewrite (attributeCondition_static selector attrName
               (fun actualValue =>
                  inr (JBool (R.gte (parseInt_10 actualValue) minValue)))
               w T e value _ HT He Hv eq_refl).
    cbn [R.equals JsVal_eqb R.gte]. apply bool_eqb_true. }
  split; [|split].
  - intros minValue. rewrite Hrun. apply js_le_number_le.
  - intros minValue Hnan. rewrite Hrun, Hnan. now destruct minValue as [|[|]|m k].
  - intros n minValue Hn. rewrite Hrun.
    destruct (parseInt_10 (JStr value)) as [|b|q k]; try discriminate.
    cbn [integer_value] in Hn.
    destruct (Z.leb_spec 0 k); [|discriminate]. injection Hn as <-.
    rewrite js_le_integers by assumption. apply Z.leb_le.
Qed.

Lemma attributeValueNotLessThan_at_least_witness :
  succeeds (fst (Expectation.attributeValueNotLessThan (Css ".row") "scrollHeight"
                   (Finite 101 0) (example_world (JNum 1000))))
  = true.
Proof.
  destruct (attributeValueNotLessThan_at_least (Css ".row") "scrollHeight"
              (example_world (JNum 1000)) 1000 row "101") as (_ & _ & Hint).
  - reflexivity.
  - intros t. cbv [element_at]. cbn. destruct (t <? 600); reflexivity.
  - reflexivity.
  - apply (Hint 101 101); [reflexivity | lia].
Defined.

(** X2. [Expectation.attributeCondition]: while the element is missing or
    lacks the attribute, the condition is not called, so the expectation
    ends in the same way whatever the condition is; under a deadline it is
    rejected by the timeout of the wait. *)
Theorem attributeCondition_needs_the_attribute selector attrName condition w T :
  browser.deadline (defaultExpectationTimeout w) = Some T ->
  (forall t, clock w <= t < clock w + T ->
     match element_at selector w t with
     | Some e => assoc attrName (el_attributes e) = None
     | None => True
     end) ->
  (exists m,
     actual (fst (Expectation.attributeCondition selector attrName condition w))
     = Rejected (TimeoutError m))
  /\ forall other,
       fst (Expectation.attributeCondition selector attrName other w)
       = fst (Expectation.attributeCondition selector attrName condition w).
Proof.
  intros HT Hmissing.
  assert (Hany : forall c,
             actual (fst (Expectation.attributeCondition selector attrName c w))
             = Rejected (TimeoutError "")).
  { intros c. rewrite attributeCondition_actual.
    rewrite (wait_fn_never _ _ None _ T HT); [reflexivity|].
    intros t Ht. cbn [log page clock] in *.
    rewrite attribute_holds_without; [reflexivity|]. apply Hmissing. exact Ht. }
  split; [eexists; apply Hany|].
  intros other. pose proof (Hany other) as H1. pose proof (Hany condition) as H2.
  destruct (fst (Expectation.attributeCondition selector attrName other w)) as [p1].
  destruct (fst (Expectation.attributeCondition selector attrName condition w)) as [p2].
  cbn [actual] in H1, H2. congruence.
Qed.

Lemma attributeCondition_needs_the_attribute_witness :
  (exists m,
     actual (fst (Expectation.attributeCondition (Css ".row") "title"
                    (fun _ => inl (TypeError "thrown"))
                    (example_world (JNum 1000))))
     = Rejected (TimeoutError m))
  /\ forall other,
       fst (Expectation.attributeCondition (Css ".row") "title" other
              (example_world (JNum 1000)))
       = fst (Expectation.attributeCondition (Css ".row") "title"
                (fun _ => inl (TypeError "thrown"))
                (example_world (JNum 1000))).
Proof.
  apply (attributeCondition_needs_the_attribute (Css ".row") "title"
           (fun _ => inl (TypeError "thrown")) (example_world (JNum 1000)) 1000).
  - reflexivity.
  - intros t _. cbv [element_at]. cbn. destruct (t <? 600); reflexivity.
Defined.

Lemma poll_read_outcomes (g : Dom -> Promise) (thrown : Error -> Prop) expiry :
  (forall d, (exists b, g d = Fulfilled (JBool b))
             \/ exists err, thrown err /\ g d = Rejected err) ->
  forall n w,
    fst (browser.poll n expiry (read g) w) = expiry
    \/ fst (browser.poll n expiry (read g) w) = Fulfilled (JBool true)
    \/ exists err, thrown err
                   /\ fst (browser.poll n expiry (read g) w) = Rejected err.
Proof.
  intros Hg. induction n as [|n IH]; intros w.
  - left. reflexivity.
  - rewrite poll_read_step.
    destruct (Hg (page w (clock w))) as [[[|] ->] | (err & Herr & ->)]; cbn [truthy].
    + right. left. reflexivity.
    + apply IH.
    + right. right. exists err. split; [exact Herr | reflexivity].
Qed.

(** X3. [Expectation.attributeCondition] under a deadline ends in one of
    three ways, on every page and for every condition: fulfilled with
    [true], rejected by the timeout of the wait, or rejected with an error
    that the condition threw on a value. An element that is missing, and a
    [getAttribute] that is rejected, count as a condition not met, not as
    an error. *)
Theorem attributeCondition_true_timeout_or_thrown
        selector attrName condition w T :
  browser.deadline (defaultExpectationTimeout w) = Some T ->
  actual (fst (Expectation.attributeCondition selector attrName condition w))
  = Fulfilled (JBool true)
  \/ (exists m,
        actual (fst (Expectation.attributeCondition selector attrName condition w))
        = Rejected (TimeoutError m))
  \/ exists v err,
       condition v = inl err
       /\ actual (fst (Expectation.attributeCondition selector attrName condition w))
          = Rejected err.
Proof.
  intros HT. rewrite attributeCondition_actual.
  unfold browser.wait_fn. rewrite HT.
  destruct (poll_read_outcomes (attribute_holds selector attrName condition)
              (fun err => exists v, condition v = inl err)
              (Rejected (TimeoutError ""))) with
      (n := browser.polls_within T
              (latency (log (EvWait (defaultExpectationTimeout w) None)
                            (log (EvLocate selector) (log (EvLocate selector) w)))))
      (w := log (EvWait (defaultExpectationTimeout w) None)
                (log (EvLocate selector) (log (EvLocate selector) w)))
    as [H | [H | (err & [v Hv] & H)]].
  - intros d.
    destruct (attribute_holds_outcomes selector attrName condition d)
      as [Hb | (v & err & Hc & Hr)]; [left; exact Hb | right; eauto].
  - right. left. eexists. exact H.
  - left. exact H.
  - right. right. eauto.
Qed.

(** On the page of one cell a condition that throws on the value rejects
    the expectation with what it threw. *)
Lemma attributeCondition_true_timeout_or_thrown_witness :
  actual (fst (Expectation.attributeCondition (Css "td") "colspan"
                 (fun _ => inl (TypeError "thrown")) table_world))
  = Rejected (TypeError "thrown").
Proof.
  destruct (attributeCondition_true_timeout_or_thrown (Css "td") "colspan"
              (fun _ => inl (TypeError "thrown")) table_world 1000 eq_refl)
    as [H | [[m H] | (v & err & Hc & H)]].
  - discriminate H.
  - discriminate H.
  - rewrite H. injection Hc as <-. reflexivity.
Defined.

(** ** [indexOf] and occurrences *)

Lemma prefix_occurs (a s : string) :
  String.prefix a s = true <-> exists after, s = a ++ after.
Proof.
  revert s. induction a as [|x a IH]; intros s.
  - split; [intros _; exists s; reflexivity | intros _; now destruct s].
  - destruct s as [|y s]; simpl.
    + split; [discriminate | intros [after H]; discriminate].
    + destruct (Ascii.ascii_dec x y) as [->|Hxy].
      * rewrite IH. split; intros [after H]; exists after.
        -- now rewrite H.
        -- now injection H.
      * split; [discriminate|]. intros [after H]. congruence.
Qed.

Lemma occurs_in_tail value c r :
  String.prefix value (String c r) = false ->
  occurs_in value (String c r) -> occurs_in value r.
Proof.
  intros Hp [before [after H]]. destruct before as [|b before].
  - simpl in H. assert (String.prefix value (String c r) = true) as Hp'
      by (apply prefix_occurs; now exists after).
    rewrite Hp' in Hp. discriminate.
  - simpl in H. injection H as _ H. now exists before, after.
Qed.

(** [indexOf] gives -1 or a position, and a position exactly when the
    value occurs. *)
Lemma indexOf_from_spec value : forall s i, 0 <= i ->
  (i <= indexOf_from i value s -> occurs_in value s)
  /\ (occurs_in value s -> i <= indexOf_from i value s)
  /\ (indexOf_from i value s = -1 \/ i <= indexOf_from i value s).
Proof.
  induction s as [|c r IH]; intros i Hi.
  - cbn [indexOf_from]. destruct (String.prefix value "") eqn:Hp.
    + split; [|split]; try lia.
      intros _. apply prefix_occurs in Hp. destruct Hp as [after H].
      now exists "", after.
    + split; [lia|]. split; [|left; reflexivity].
      intros [before [after H]]. destruct before; [|discriminate].
      simpl in H. assert (String.prefix value "" = true) as Hp'
        by (apply prefix_occurs; now exists after).
      rewrite Hp' in Hp. discriminate.
  - cbn [indexOf_from]. destruct (String.prefix value (String c r)) eqn:Hp.
    + split; [|split]; try lia.
      intros _. apply prefix_occurs in Hp. destruct Hp as [after H].
      now exists "", after.
    + destruct (IH (i + 1) ltac:(lia)) as (H1 & H2 & H3).
      split; [|split].
      * intros Hle. destruct H3 as [H3|H3]; [lia|].
        destruct (H1 H3) as [before [after H]].
        exists (String c before), after. simpl. now rewrite H.
      * intros Hocc. pose proof (H2 (occurs_in_tail _ _ _ Hp Hocc)). lia.
      * destruct H3; [left; assumption | right; lia].
Qed.

Lemma js_lt_integers a b : js_lt (Finite a 0) (Finite b 0) = (a <? b).
Proof.
  cbn [js_lt]. rewrite Z.min_id, Z.sub_diag, Z.pow_0_r, !Z.mul_1_r. reflexivity.
Qed.

Lemma indexOf_occurs s value :
  R.gt (Finite (String_indexOf s value) 0) (Finite (-1) 0) = true
  <-> occurs_in value s.
Proof.
  unfold String_indexOf, R.gt. rewrite js_lt_integers.
  destruct (indexOf_from_spec value s 0 ltac:(lia)) as (H1 & H2 & H3).
  rewrite Z.ltb_lt. split.
  - intros H. apply H1. lia.
  - intros H. pose proof (H2 H). lia.
Qed.

Lemma indexOf_minus_one s value :
  R.equals (JNum (String_indexOf s value)) (JNum (-1))
  = negb (R.gt (Finite (String_indexOf s value) 0) (Finite (-1) 0)).
Proof.
  unfold String_indexOf, R.gt. rewrite js_lt_integers. cbn [R.equals JsVal_eqb].
  destruct (indexOf_from_spec value s 0 ltac:(lia)) as (_ & _ & [H|H]).
  - rewrite H. reflexivity.
  - destruct (Z.eqb_spec (indexOf_from 0 value s) (-1)); [lia|].
    destruct (Z.ltb_spec (-1) (indexOf_from 0 value s)); [reflexivity | lia].
Qed.

(** X4. [Expectation.attributeContainsValue(selector, attrName, value)],
    on a page where the element stays and its attribute keeps the text
    [text], succeeds exactly when [value] occurs in [text]; the empty
    value occurs in every text. *)
Theorem attributeContainsValue_occurs selector attrName value w T e text :
  browser.deadline (defaultExpectationTimeout w) = Some T ->
  (forall t, element_at selector w t = Some e) ->
  assoc attrName (el_attributes e) = Some text ->
  (succeeds (fst (Expectation.attributeContainsValue selector attrName value w)) = true
   <-> occurs_in value text)
  /\ succeeds (fst (Expectation.attributeContainsValue selector attrName "" w)) = true.
Proof.
  intros HT He Hv.
  assert (Hiff : forall v,
             succeeds (fst (Expectation.attributeContainsValue selector attrName v w))
             = true <-> occurs_in v text).
  { intros v. unfold Expectation.attributeContainsValue.
    erewrite attributeCondition_static;
      [| exact HT | exact He | exact Hv | reflexivity].
    cbn [R.equals JsVal_eqb]. rewrite bool_eqb_true. apply indexOf_occurs. }
  split; [apply Hiff|]. apply Hiff. now exists "", text.
Qed.

Lemma attributeContainsValue_occurs_witness :
  succeeds (fst (Expectation.attributeContainsValue (Css ".row") "scrollHeight" "01"
                   (example_world (JNum 1000))))
  = true.
Proof.
  destruct (attributeContainsValue_occurs (Css ".row") "scrollHeight" "01"
              (example_world (JNum 1000)) 1000 row "101") as [Hiff _].
  - reflexivity.
  - intros t. cbv [element_at]. cbn. destruct (t <? 600); reflexivity.
  - reflexivity.
  - apply Hiff. now exists "1", "".
Defined.

(** X5. On a page where the element stays and keeps its attribute,
    [Expectation.attributeDoesntContainValue] succeeds exactly when
    [Expectation.attributeContainsValue] does not. While the attribute is
    missing, neither of the two succeeds. *)
Theorem attributeDoesntContainValue_complements selector attrName value w T :
  browser.deadline (defaultExpectationTimeout w) = Some T ->
  (forall e text,
     (forall t, element_at selector w t = Some e) ->
     assoc attrName (el_attributes e) = Some text ->
     succeeds (fst (Expectation.attributeDoesntContainValue selector attrName value w))
     = negb (succeeds (fst (Expectation.attributeContainsValue selector attrName value w))))
  /\ ((forall t, clock w <= t < clock w + T ->
         match element_at selector w t with
         | Some e => assoc attrName (el_attributes e) = None
         | None => True
         end) ->
      succeeds (fst (Expectation.attributeDoesntContainValue selector attrName value w))
      = false
      /\ succeeds (fst (Expectation.attributeContainsValue selector attrName value w))
         = false).
Proof.
  intros HT. split.
  - intros e text He Hv.
    unfold Expectation.attributeDoesntContainValue, Expectation.attributeContainsValue.
    erewrite !attributeCondition_static;
      [| exact HT | exact He | exact Hv | reflexivity
       | exact HT | exact He | exact Hv | reflexivity].
    rewrite indexOf_minus_one. cbn [R.equals JsVal_eqb].
    rewrite !bool_eqb_true. reflexivity.
  - intros Hmissing.
    unfold Expectation.attributeDoesntContainValue, Expectation.attributeContainsValue,
      succeeds.
    rewrite !attributeCondition_actual.
    rewrite !(wait_fn_never _ _ None _ T HT); [auto| |];
      intros t Ht; cbn [log page clock] in *;
      (rewrite attribute_holds_without; [reflexivity | apply Hmissing; exact Ht]).
Qed.

Lemma attributeDoesntContainValue_complements_witness :
  succeeds (fst (Expectation.attributeDoesntContainValue (Css ".row") "scrollHeight" "7"
                   (example_world (JNum 1000))))
  = negb (succeeds (fst (Expectation.attributeContainsValue (Css ".row") "scrollHeight"
                           "7" (example_world (JNum 1000))))).
Proof.
  destruct (attributeDoesntContainValue_complements (Css ".row") "scrollHeight" "7"
              (example_world (JNum 1000)) 1000 eq_refl) as [Hpresent _].
  apply (Hpresent row "101").
  - intros t. cbv [element_at]. cbn. destruct (t <? 600); reflexivity.
  - reflexivity.
Defined.


(** ** The presence of an attribute *)

(** X6. [Expectation.hasAttribute] and [Expectation.hasNoAttribute]: on a
    page where the element stays, the first succeeds exactly when the
    element has the attribute and the second exactly when it has not.
    While the element is missing neither succeeds: a missing element does
    not count as one without the attribute. *)
Theorem hasAttribute_hasNoAttribute selector attrName w T :
  browser.deadline (defaultExpectationTimeout w) = Some T ->
  (forall e, (forall t, element_at selector w t = Some e) ->
     succeeds (fst (Expectation.hasAttribute selector attrName w))
     = match assoc attrName (el_attributes e) with Some _ => true | None => false end
     /\ succeeds (fst (Expectation.hasNoAttribute selector attrName w))
        = match assoc attrName (el_attributes e) with Some _ => false | None => true end)
  /\ ((forall t, clock w <= t < clock w + T -> element_at selector w t = None) ->
      succeeds (fst (Expectation.hasAttribute selector attrName w)) = false
      /\ succeeds (fst (Expectation.hasNoAttribute selector attrName w)) = false).
Proof.
  intros HT.
  pose (has := fun (f : ElementFinder) (d : Dom) =>
                 then2 (ElementFinderApi.getAttribute f attrName d)
                       (fun attrValue => JBool (negb (R.isNil attrValue))) R.F).
  pose (hasNo := fun (f : ElementFinder) (d : Dom) =>
                   then2 (ElementFinderApi.getAttribute f attrName d)
                         (fun attrValue => JBool (R.isNil attrValue)) R.F).
  pose proof (observes_located selector has) as Hhas.
  pose proof (observes_located selector hasNo) as HhasNo.
  subst has hasNo. cbv beta in Hhas, HhasNo.
  split.
  - intros e He.
    unfold Expectation.hasAttribute, Expectation.hasNoAttribute, succeeds.
    split.
    + rewrite (checkPresenceAndCondition_static selector _ _ w T
                 (Fulfilled (JBool (match assoc attrName (el_attributes e) with
                                    | Some _ => true | None => false end)))
                 Hhas HT).
      * destruct (assoc attrName (el_attributes e)); reflexivity.
      * intros t. rewrite (present_and_present _ _ _ e (He t)).
        rewrite (getAttribute_present _ _ _ e (He t)).
        destruct (assoc attrName (el_attributes e)); reflexivity.
    + rewrite (checkPresenceAndCondition_static selector _ _ w T
                 (Fulfilled (JBool (match assoc attrName (el_attributes e) with
                                    | Some _ => false | None => true end)))
                 HhasNo HT).
      * destruct (assoc attrName (el_attributes e)); reflexivity.
      * intros t. rewrite (present_and_present _ _ _ e (He t)).
        rewrite (getAttribute_present _ _ _ e (He t)).
        destruct (assoc attrName (el_attributes e)); reflexivity.
  - intros Habsent.
    unfold Expectation.hasAttribute, Expectation.hasNoAttribute, succeeds.
    rewrite (checkPresenceAndCondition_never selector _ _ w T Hhas HT),
      (checkPresenceAndCondition_never selector _ _ w T HhasNo HT); [auto| |];
      intros t Ht; (rewrite present_and_absent; [reflexivity | apply Habsent; exact Ht]).
Qed.

Lemma hasAttribute_hasNoAttribute_witness :
  succeeds (fst (Expectation.hasAttribute (Css ".row") "scrollHeight"
                   (example_world (JNum 1000)))) = true
  /\ succeeds (fst (Expectation.hasNoAttribute (Css ".row") "scrollHeight"
                      (example_world (JNum 1000)))) = false
  /\ succeeds (fst (Expectation.hasNoAttribute (Css ".missing") "scrollHeight"
                      (example_world (JNum 1000)))) = false.
Proof.
  destruct (hasAttribute_hasNoAttribute (Css ".row") "scrollHeight"
              (example_world (JNum 1000)) 1000 eq_refl) as [Hpresent _].
  destruct (hasAttribute_hasNoAttribute (Css ".missing") "scrollHeight"
              (example_world (JNum 1000)) 1000 eq_refl) as [_ Habsent].
  destruct (Hpresent row) as [H1 H2].
  { intros t. cbv [element_at]. cbn. destruct (t <? 600); reflexivity. }
  destruct Habsent as [_ H3].
  { intros t _. reflexivity. }
  repeat split; assumption.
Defined.

(** ** [trim] *)





Section Skipping.

Variable strip : list ascii -> option (list ascii).
Hypothesis strip_shorter :
  forall l r, strip l = Some r -> (List.length r < List.length l)%nat.




End Skipping.






(** X8. [Expectation.attributeEquals] and [Expectation.attributeNotEqual]
    on an element that is there without the attribute: [R.trim] throws on
    the [null] that [getAttribute] gives, so under a deadline both are
    rejected with that [TypeError] at the first poll, one poll after the
    call, instead of waiting for the attribute. *)
Theorem attributeEquals_throws_without_attribute selector attribute text w T e :
  browser.deadline (defaultExpectationTimeout w) = Some T ->
  element_at selector w (clock w) = Some e ->
  assoc attribute (el_attributes e) = None ->
  (exists m,
     actual (fst (Expectation.attributeEquals selector attribute text w))
     = Rejected (TypeError m))
  /\ (exists m,
        actual (fst (Expectation.attributeNotEqual selector attribute text w))
        = Rejected (TypeError m))
  /\ clock (snd (Expectation.attributeEquals selector attribute text w))
     = clock w + Zpos (latency w)
  /\ clock (snd (Expectation.attributeNotEqual selector attribute text w))
     = clock w + Zpos (latency w).
Proof.
  intros HT He Hv.
  assert (Hrej : forall (k : bool -> bool),
             present_and selector
               (fun d =>
                  then_try (ElementFinderApi.getAttribute (ElementUtil.finder_of selector)
                              attribute d)
                    (fun actualText =>
                       match R_trim actualText with
                       | inl err => inl err
                       | inr a =>
                           match R_trim (JStr text) with
                           | inl err => inl err
                           | inr b => inr (JBool (k (R.equals a b)))
                           end
                       end)) (page w (clock w))
             = Rejected (TypeError "trim is not a function of the value")).
  { intros k. rewrite (present_and_present _ _ _ e He).
    rewrite (getAttribute_present _ _ _ e He), Hv. reflexivity. }
  assert (Hrun : forall g,
             present_and selector g (page w (clock w))
             = Rejected (TypeError "trim is not a function of the value") ->
             actual (fst (Expectation.checkPresenceAndCondition selector (read g)
                            (log (EvLocate selector) w)))
             = Rejected (TypeError "trim is not a function of the value")
             /\ clock (snd (Expectation.checkPresenceAndCondition selector (read g)
                              (log (EvLocate selector) w)))
                = clock w + Zpos (latency w)).
  { intros g Hg.
    destruct (checkPresenceAndCondition_reads selector (read g) g
                (log (EvLocate selector) w) (observes_read g)) as [Hactual Hclock].
    rewrite Hactual, Hclock.
    rewrite (wait_fn_rejected_now _
               (defaultExpectationTimeout (log (EvLocate selector) w)) None
               (log (EvLocate selector) (log (EvLocate selector) w)) T _ HT Hg).
    split; reflexivity. }
  destruct (Hrun _ (Hrej (fun x => x))) as [Heq1 Heq2].
  destruct (Hrun _ (Hrej negb)) as [Hne1 Hne2].
  cbv beta in Heq1, Heq2.
  repeat split; eauto.
Qed.

Lemma attributeEquals_throws_without_attribute_witness :
  exists m,
    actual (fst (Expectation.attributeEquals (Css ".row") "title" "Hello"
                   (example_world (JNum 1000))))
    = Rejected (TypeError m).
Proof.
  destruct (attributeEquals_throws_without_attribute (Css ".row") "title" "Hello"
              (example_world (JNum 1000)) 1000 row) as [H _].
  - reflexivity.
  - reflexivity.
  - reflexivity.
  - exact H.
Defined.

(** ** [split] and class names *)

Lemma occurs_in_cons c piece r : occurs_in piece r -> occurs_in piece (String c r).
Proof.
  intros [before [after H]]. exists (String c before), after. simpl. now rewrite H.
Qed.

(** The first piece of a split is a prefix of the text. *)
Lemma String_split_head sep s :
  match String_split sep s with
  | piece :: _ => exists after, s = piece ++ after
  | [] => False
  end.
Proof.
  induction s as [|c r IH]; cbn [String_split].
  - now exists "".
  - destruct (Ascii.eqb c sep).
    + now exists (String c r).
    + destruct (String_split sep r) as [|piece pieces]; [contradiction|].
      destruct IH as [after H]. exists after. simpl. now rewrite H.
Qed.

(** Each piece of a split occurs in the text and is free of the
    separator. *)
Lemma String_split_pieces sep : forall s piece,
  In piece (String_split sep s) ->
  has_char sep piece = false /\ occurs_in piece s.
Proof.
  induction s as [|c r IH]; cbn [String_split]; intros piece Hin.
  - destruct Hin as [<-|[]]. split; [reflexivity | now exists "", ""].
  - destruct (Ascii.eqb c sep) eqn:Hc.
    + destruct Hin as [<-|Hin].
      * split; [reflexivity | now exists "", (String c r)].
      * destruct (IH piece Hin) as [Hfree Hocc].
        split; [exact Hfree | now apply occurs_in_cons].
    + pose proof (String_split_head sep r) as Hhead.
      destruct (String_split sep r) as [|piece0 pieces]; [contradiction|].
      destruct Hin as [<-|Hin].
      * destruct (IH piece0 (or_introl eq_refl)) as [Hfree _].
        split.
        -- cbn [has_char]. now rewrite Hc, Hfree.
        -- destruct Hhead as [after H]. exists "", after. simpl. now rewrite H.
      * destruct (IH piece (or_intror Hin)) as [Hfree Hocc].
        split; [exact Hfree | now apply occurs_in_cons].
Qed.

Lemma R_includes_In x l : R_includes x l = true <-> In x l.
Proof.
  unfold R_includes. rewrite existsb_exists. split.
  - intros [y [Hin Heq]]. apply String.eqb_eq in Heq. now subst.
  - intros Hin. exists x. split; [exact Hin | apply String.eqb_refl].
Qed.

Lemma hasClassName_run selector className w :
  Expectation.hasClassName selector className w
  = (then_try (ElementFinderApi.getAttribute (ElementUtil.finder_of selector) "class"
                 (page w (clock w)))
              (fun classes =>
                 match classes with
                 | JStr s => inr (JBool (R_includes className (String_split " " s)))
                 | _ => inl (TypeError "split is not a function of the value")
                 end),
     log (EvLocate selector) w).
Proof. reflexivity. Qed.

(** X9. [Expectation.hasClassName(selector, className)] does not wait: it
    locates the element and reads its [class] attribute once, as the page
    is now. For an element with [class] attribute [classes] the result is
    [true] exactly when [className] is one of the pieces of [classes]
    between single spaces; such a piece occurs in [classes] and has no
    space, so a part of a class name, or two names at once, is not
    found. *)
Theorem hasClassName_whole_names selector className w e classes :
  element_at selector w (clock w) = Some e ->
  assoc "class" (el_attributes e) = Some classes ->
  snd (Expectation.hasClassName selector className w) = log (EvLocate selector) w
  /\ fst (Expectation.hasClassName selector className w)
     = Fulfilled (JBool (R_includes className (String_split " " classes)))
  /\ (fst (Expectation.hasClassName selector className w) = Fulfilled (JBool true)
      <-> In className (String_split " " classes))
  /\ (fst (Expectation.hasClassName selector className w) = Fulfilled (JBool true) ->
      occurs_in className classes /\ has_char " " className = false).
Proof.
  intros He Hc. rewrite hasClassName_run. cbn [fst snd].
  rewrite (getAttribute_present _ _ _ e He), Hc. cbn [then_try].
  split; [reflexivity|]. split; [reflexivity|].
  assert (Hiff : Fulfilled (JBool (R_includes className (String_split " " classes)))
                 = Fulfilled (JBool true)
                 <-> In className (String_split " " classes)).
  { rewrite <- R_includes_In. split; [intros [= ->]; reflexivity | intros ->; reflexivity]. }
  split; [exact Hiff|].
  intros H. apply Hiff in H.
  destruct (String_split_pieces " " classes className H). auto.
Qed.

Lemma hasClassName_whole_names_witness :
  fst (Expectation.hasClassName (Css ".row") "big"
         (mkWorld 0 (fun _ _ => [mkElement "" true true false [("class", "btn big")]])
                  250 5 JUndefined []))
  = Fulfilled (JBool true).
Proof.
  destruct (hasClassName_whole_names (Css ".row") "big"
              (mkWorld 0 (fun _ _ => [mkElement "" true true false [("class", "btn big")]])
                       250 5 JUndefined [])
              (mkElement "" true true false [("class", "btn big")]) "btn big"
              eq_refl eq_refl) as (_ & _ & Hiff & _).
  apply Hiff. simpl. auto.
Defined.

(** X10. [Expectation.hasClassName] on an element that is missing, or
    that has no [class] attribute, is rejected; it does not give
    [false]. *)
Theorem hasClassName_rejects_without_class selector className w :
  match element_at selector w (clock w) with
  | Some e => assoc "class" (el_attributes e) = None
  | None => True
  end ->
  exists err, fst (Expectation.hasClassName selector className w) = Rejected err.
Proof.
  intros H. rewrite hasClassName_run. cbn [fst].
  unfold element_at in H.
  unfold ElementFinderApi.getAttribute, ElementFinderApi.on_element.
  destruct (ElementFinderApi.resolve (ElementUtil.finder_of selector) (page w (clock w)))
    as [e|].
  - rewrite H. cbn. eauto.
  - cbn. eauto.
Qed.

Lemma hasClassName_rejects_without_class_witness :
  exists err,
    fst (Expectation.hasClassName (Css ".row") "row" (example_world JUndefined))
    = Rejected err.
Proof.
  apply (hasClassName_rejects_without_class (Css ".row") "row" (example_world JUndefined)).
  reflexivity.
Defined.

(** ** [Expectation.condition] and the counts *)

Lemma condition_run conditionFunction message w :
  Expectation.condition conditionFunction message w
  = (mkAssertion
       (fst (browser.wait_fn (read conditionFunction) (defaultExpectationTimeout w)
               message w)),
     log (EvExpect
            (fst (browser.wait_fn (read conditionFunction) (defaultExpectationTimeout w)
                    message w)))
         (snd (browser.wait_fn (read conditionFunction) (defaultExpectationTimeout w)
                 message w))).
Proof.
  unfold Expectation.condition. rewrite expectExecutedAction_run. reflexivity.
Qed.

Lemma occurs_in_refl s : occurs_in s s.
Proof. exists "", "". simpl. now rewrite append_empty_r. Qed.

(** X11. [Expectation.condition(conditionFunction, message)] under a
    deadline: when the function is falsy at every instant before the
    deadline, the expectation is rejected by the timeout of the wait, and
    the text of the error contains [message] when one was given; when the
    function holds at the call, the expectation is fulfilled with the
    function's own value after one poll. *)
Theorem condition_expires_with_its_message conditionFunction message w T :
  browser.deadline (defaultExpectationTimeout w) = Some T ->
  ((forall t, clock w <= t < clock w + T ->
      fails (conditionFunction (page w t)) = true) ->
   exists m,
     actual (fst (Expectation.condition conditionFunction message w))
     = Rejected (TimeoutError m)
     /\ match message with
        | Some text => occurs_in text m
        | None => True
        end)
  /\ (forall v, conditionFunction (page w (clock w)) = Fulfilled v -> truthy v = true ->
      actual (fst (Expectation.condition conditionFunction message w)) = Fulfilled v
      /\ clock (snd (Expectation.condition conditionFunction message w))
         = clock w + Zpos (latency w)).
Proof.
  intros HT. rewrite condition_run. cbn [fst snd actual]. split.
  - intros Hnever. rewrite (wait_fn_never _ _ message _ T HT) by exact Hnever.
    eexists. split; [reflexivity|].
    destruct message; [apply occurs_in_refl | exact I].
  - intros v Hv Htruthy.
    rewrite (wait_fn_now _ _ message _ T v HT Hv Htruthy). cbn [fst snd].
    split; reflexivity.
Qed.

Lemma condition_expires_with_its_message_witness :
  exists m,
    actual (fst (Expectation.condition (fun _ => Fulfilled (JBool false))
                   (Some "never") (example_world (JNum 1000))))
    = Rejected (TimeoutError m)
    /\ occurs_in "never" m.
Proof.
  destruct (condition_expires_with_its_message (fun _ => Fulfilled (JBool false))
              (Some "never") (example_world (JNum 1000)) 1000 eq_refl) as [Hnever _].
  apply Hnever. intros t _. reflexivity.
Defined.

Lemma count_static selector (h : Z -> bool) w T n :
  browser.deadline (defaultExpectationTimeout w) = Some T ->
  (forall t, count_at selector w t = n) ->
  succeeds (fst (Expectation.condition
                   (fun d => Fulfilled (JBool (h (Z.of_nat (List.length
                                                   (query d (By_css selector)))))))
                   None w))
  = h n.
Proof.
  intros HT Hn. rewrite condition_run. unfold succeeds. cbn [fst actual].
  rewrite (wait_fn_read_constant _ (Fulfilled (JBool (h n))) None w T HT).
  - cbn [fails truthy]. destruct (h n); reflexivity.
  - intros t. unfold count_at in Hn. now rewrite Hn.
Qed.

(** X12. [Expectation.count] and [Expectation.countAtLeast] under a
    deadline. On a page where the selector keeps matching [n] elements,
    [count] with the number [k] succeeds exactly when [n = k],
    [countAtLeast] with the integer [k] exactly when [k <= n], and
    [countAtLeast] with any number exactly when that number is at most
    [n]. When the number of matches never equals the expected count
    before the deadline, as for every expected count that is not a
    number, [count] is rejected by the timeout of the wait. *)
Theorem count_and_countAtLeast selector w T :
  browser.deadline (defaultExpectationTimeout w) = Some T ->
  (forall n k, (forall t, count_at selector w t = n) ->
     succeeds (fst (Expectation.count selector (JNum k) w)) = (n =? k)
     /\ succeeds (fst (Expectation.countAtLeast selector (Finite k 0) w)) = (k <=? n))
  /\ (forall n expectedCount, (forall t, count_at selector w t = n) ->
        succeeds (fst (Expectation.countAtLeast selector expectedCount w)) = true
        <-> number_le expectedCount (Finite n 0))
  /\ (forall expectedCount,
        (forall t, clock w <= t < clock w + T ->
           R.equals (JNum (count_at selector w t)) expectedCount = false) ->
        exists m,
          actual (fst (Expectation.count selector expectedCount w))
          = Rejected (TimeoutError m))
  /\ (forall expectedCount, (forall k, expectedCount <> JNum k) ->
        exists m,
          actual (fst (Expectation.count selector expectedCount w))
          = Rejected (TimeoutError m)).
Proof.
  intros HT.
  assert (Hnever : forall expectedCount,
             (forall t, clock w <= t < clock w + T ->
                R.equals (JNum (count_at selector w t)) expectedCount = false) ->
             exists m,
               actual (fst (Expectation.count selector expectedCount w))
               = Rejected (TimeoutError m)).
  { intros expectedCount Hne. unfold Expectation.count.
    rewrite condition_run. cbn [fst actual].
    rewrite (wait_fn_never _ _ None _ T HT); [eexists; reflexivity|].
    intros t Ht. cbn [fails truthy]. unfold count_at in Hne. now rewrite (Hne t Ht). }
  assert (Hleast : forall n expectedCount, (forall t, count_at selector w t = n) ->
             succeeds (fst (Expectation.countAtLeast selector expectedCount w))
             = js_le expectedCount (Finite n 0)).
  { intros n expectedCount Hn. unfold Expectation.countAtLeast.
    apply (count_static selector (fun c => R.gte (Finite c 0) expectedCount) w T n HT Hn). }
  split; [|split; [|split]].
  - intros n k Hn. split.
    + unfold Expectation.count.
      apply (count_static selector (fun c => R.equals (JNum c) (JNum k)) w T n HT Hn).
    + rewrite (Hleast n _ Hn), js_le_integers by lia.
      now rewrite Z.pow_0_r, Z.mul_1_r.
  - intros n expectedCount Hn. rewrite (Hleast n _ Hn). apply js_le_number_le.
  - exact Hnever.
  - intros expectedCount Hnan. apply Hnever. intros t _.
    destruct expectedCount; try reflexivity. now destruct (Hnan n).
Qed.

Lemma count_and_countAtLeast_witness :
  succeeds (fst (Expectation.countAtLeast (Css ".missing") (Finite 0 0)
                   (example_world (JNum 1000))))
  = true
  /\ exists m,
       actual (fst (Expectation.count (Css ".row") (JStr "2")
                      (example_world (JNum 1000))))
       = Rejected (TimeoutError m).
Proof.
  destruct (count_and_countAtLeast (Css ".missing") (example_world (JNum 1000)) 1000
              eq_refl) as (Hstatic & _ & _ & _).
  destruct (count_and_countAtLeast (Css ".row") (example_world (JNum 1000)) 1000
              eq_refl) as (_ & _ & _ & Hnan).
  split.
  - destruct (Hstatic 0 0) as [_ H]; [intros t; reflexivity | exact H].
  - apply Hnan. intros k. discriminate.
Defined.

(** ** What the expectations ask of the browser *)

Lemma browser_events_app a b :
  browser_events (a ++ b) = (browser_events a ++ browser_events b)%list.
Proof. apply filter_app. Qed.

Lemma browser_events_log_expect p w :
  browser_events (trace (log (EvExpect p) w)) = browser_events (trace w).
Proof. cbn [log trace]. rewrite browser_events_app. cbn. apply app_nil_r. Qed.

Lemma browser_events_poll_events selector lat : forall k t,
  browser_events (poll_events selector k t lat) = poll_events selector k t lat.
Proof.
  induction k as [|k IH]; intros t; [reflexivity|].
  cbn [poll_events browser_events filter]. fold (browser_events (poll_events selector k (t + lat) lat)).
  now rewrite IH.
Qed.

Lemma browser_events_tick_events lat : forall k t,
  browser_events (tick_events k t lat) = tick_events k t lat.
Proof.
  induction k as [|k IH]; intros t; [reflexivity|].
  cbn [tick_events browser_events filter]. fold (browser_events (tick_events k (t + lat) lat)).
  now rewrite IH.
Qed.

Lemma polls_with_locate selector lat : forall k t,
  polls_with [EvLocate selector] k t lat = poll_events selector k t lat.
Proof. induction k as [|k IH]; intros t; cbn; [reflexivity | now rewrite IH]. Qed.

Lemma polls_with_nothing lat : forall k t,
  polls_with [] k t lat = tick_events k t lat.
Proof. induction k as [|k IH]; intros t; cbn; [reflexivity | now rewrite IH]. Qed.

(** Polls of a function that is falsy on the page and leaves the same
    events behind it each time. *)
Lemma poll_never_trace fn (extra : list Event) (P : Z -> Dom) expiry :
  (forall w, page w = P ->
     exists v, fst (fn w) = Fulfilled v /\ truthy v = false
               /\ trace (snd (fn w)) = (trace w ++ extra)%list
               /\ same_browser w (snd (fn w))) ->
  forall n w, page w = P ->
    fst (browser.poll n expiry fn w) = expiry
    /\ trace (snd (browser.poll n expiry fn w))
       = (trace w ++ polls_with extra n (clock w) (Zpos (latency w)))%list.
Proof.
  intros Hfn. induction n as [|n IH]; intros w Hw.
  - cbn. now rewrite app_nil_r.
  - cbn [browser.poll polls_with].
    destruct (Hfn (log (EvPoll (clock w)) w) Hw) as (v & Hv & Hfalsy & Htrace & Hsame).
    destruct (fn (log (EvPoll (clock w)) w)) as [p w1]. cbn [fst snd] in *.
    subst p. rewrite Hfalsy.
    destruct Hsame as (Hclock & Hpage & Hlat & _). cbn [log clock page latency] in *.
    destruct (IH (advance w1)) as [Hres Hevs].
    { cbn [advance page]. now rewrite Hpage. }
    split; [exact Hres|]. rewrite Hevs. cbn [advance trace clock latency].
    rewrite Htrace, Hclock, Hlat. cbn [log trace].
    rewrite <- !app_assoc. reflexivity.
Qed.

Lemma and_read ga gb w : EC.and (read ga) (read gb) w = read (both ga gb) w.
Proof.
  unfold EC.and, both, bind, read, ret.
  destruct (ga (dom w)) as [|va|ea]; try reflexivity.
  destruct (R.equals va (JBool true)); reflexivity.
Qed.

Lemma poll_ext fn fn' :
  (forall w, fn w = fn' w) ->
  forall n expiry w, browser.poll n expiry fn w = browser.poll n expiry fn' w.
Proof.
  intros Hext. induction n as [|n IH]; intros expiry w; [reflexivity|].
  cbn [browser.poll]. rewrite Hext.
  destruct (fn' (log (EvPoll (clock w)) w)) as [[|v|e] w1]; try reflexivity.
  destruct (truthy v); [reflexivity | apply IH].
Qed.

Lemma wait_fn_ext fn fn' timeout message w :
  (forall w, fn w = fn' w) ->
  browser.wait_fn fn timeout message w = browser.wait_fn fn' timeout message w.
Proof.
  intros Hext. unfold browser.wait_fn.
  destruct (browser.deadline timeout); apply poll_ext; exact Hext.
Qed.

(** The world after an expectation on presence and a condition, with a
    wait under a deadline. *)
Lemma checkPresenceAndCondition_trace selector condition w T :
  browser.deadline (defaultExpectationTimeout w) = Some T ->
  browser_events (trace (snd (Expectation.checkPresenceAndCondition selector condition w)))
  = browser_events
      (trace (snd (browser.poll
                     (browser.polls_within T (latency w))
                     (Rejected (TimeoutError ""))
                     (EC.and (EC.presenceOf (ElementUtil.finder_of selector)) condition)
                     (log (EvWait (defaultExpectationTimeout w) None)
                          (log (EvLocate selector) w))))).
Proof.
  intros HT. rewrite checkPresenceAndCondition_run. cbn [snd].
  rewrite browser_events_log_expect. unfold browser.wait_fn. rewrite HT.
  reflexivity.
Qed.

Lemma hasAttr_absent selector (k : JsVal -> JsVal) attrName w :
  ElementFinderApi.resolve (ElementUtil.finder_of selector) (dom w) = None ->
  EC.and (EC.presenceOf (ElementUtil.finder_of selector))
         (f <- ElementUtil.elementFinder selector ;;
          read (fun d => then2 (ElementFinderApi.getAttribute f attrName d) k R.F)) w
  = (Fulfilled (JBool false), w).
Proof.
  intros H. unfold EC.and, EC.presenceOf, bind, read, ElementFinderApi.isPresent.
  rewrite H. reflexivity.
Qed.

Lemma hasAttr_present selector (k : JsVal -> JsVal) attrName w e :
  ElementFinderApi.resolve (ElementUtil.finder_of selector) (dom w) = Some e ->
  EC.and (EC.presenceOf (ElementUtil.finder_of selector))
         (f <- ElementUtil.elementFinder selector ;;
          read (fun d => then2 (ElementFinderApi.getAttribute f attrName d) k R.F)) w
  = (Fulfilled (JBool (R.equals (k (match assoc attrName (el_attributes e) with
                                    | Some v => JStr v
                                    | None => JNull
                                    end))
                                (JBool true))),
     log (EvLocate selector) w).
Proof.
  intros H.
  cbv beta iota zeta delta [EC.and EC.presenceOf bind read ret emit
                              ElementUtil.elementFinder ElementFinderApi.isPresent
                              fst snd].
  rewrite H. cbn [R.equals JsVal_eqb Bool.eqb].
  assert (Hdom : dom (log (EvLocate selector) w) = dom w) by reflexivity.
  rewrite Hdom, (getAttribute_present _ _ _ e H). reflexivity.
Qed.

(** X15. What the expectations on attributes ask of the browser, under a
    deadline. [Expectation.attributeCondition] locates the element twice,
    starts one wait with the global timeout as it is and without a
    message, and then only polls. [Expectation.hasAttribute] and
    [Expectation.hasNoAttribute] locate the element once before the wait
    and once more at every poll at which the element is present: on a
    page where the element stays and the expectation is not met, every
    poll before the deadline locates it again; while the element is
    missing the polls do not locate it. *)
Theorem hasAttribute_locates_at_each_poll selector attrName w T :
  browser.deadline (defaultExpectationTimeout w) = Some T ->
  (forall condition,
     exists m,
       (m <= browser.polls_within T (latency w))%nat
       /\ browser_events
            (trace (snd (Expectation.attributeCondition selector attrName condition w)))
          = (browser_events (trace w)
               ++ [EvLocate selector; EvLocate selector;
                   EvWait (defaultExpectationTimeout w) None]
               ++ tick_events m (clock w) (Zpos (latency w)))%list)
  /\ (forall e,
        (forall t, element_at selector w t = Some e) ->
        assoc attrName (el_attributes e) = None ->
        browser_events (trace (snd (Expectation.hasAttribute selector attrName w)))
        = (browser_events (trace w)
             ++ [EvLocate selector; EvWait (defaultExpectationTimeout w) None]
             ++ poll_events selector (browser.polls_within T (latency w))
                            (clock w) (Zpos (latency w)))%list)
  /\ (forall e value,
        (forall t, element_at selector w t = Some e) ->
        assoc attrName (el_attributes e) = Some value ->
        browser_events (trace (snd (Expectation.hasNoAttribute selector attrName w)))
        = (browser_events (trace w)
             ++ [EvLocate selector; EvWait (defaultExpectationTimeout w) None]
             ++ poll_events selector (browser.polls_within T (latency w))
                            (clock w) (Zpos (latency w)))%list)
  /\ ((forall t, element_at selector w t = None) ->
      browser_events (trace (snd (Expectation.hasAttribute selector attrName w)))
      = (browser_events (trace w)
           ++ [EvLocate selector; EvWait (defaultExpectationTimeout w) None]
           ++ tick_events (browser.polls_within T (latency w))
                          (clock w) (Zpos (latency w)))%list
      /\ browser_events (trace (snd (Expectation.hasNoAttribute selector attrName w)))
         = (browser_events (trace w)
              ++ [EvLocate selector; EvWait (defaultExpectationTimeout w) None]
              ++ tick_events (browser.polls_within T (latency w))
                             (clock w) (Zpos (latency w)))%list).
Proof.
  intros HT.
  assert (Hpolls : forall (k : JsVal -> JsVal) (extra : list Event),
             (forall w', page w' = page w ->
                exists v,
                  fst (EC.and (EC.presenceOf (ElementUtil.finder_of selector))
                         (f <- ElementUtil.elementFinder selector ;;
                          read (fun d => then2 (ElementFinderApi.getAttribute f attrName d)
                                               k R.F)) w')
                  = Fulfilled v
                  /\ truthy v = false
                  /\ trace (snd (EC.and (EC.presenceOf (ElementUtil.finder_of selector))
                                   (f <- ElementUtil.elementFinder selector ;;
                                    read (fun d =>
                                            then2 (ElementFinderApi.getAttribute f attrName d)
                                                  k R.F)) w'))
                     = (trace w' ++ extra)%list
                  /\ same_browser w'
                       (snd (EC.and (EC.presenceOf (ElementUtil.finder_of selector))
                               (f <- ElementUtil.elementFinder selector ;;
                                read (fun d =>
                                        then2 (ElementFinderApi.getAttribute f attrName d)
                                              k R.F)) w'))) ->
             browser_events
               (trace (snd (Expectation.checkPresenceAndCondition selector
                              (f <- ElementUtil.elementFinder selector ;;
                               read (fun d =>
                                       then2 (ElementFinderApi.getAttribute f attrName d)
                                             k R.F)) w)))
             = (browser_events (trace w)
                  ++ [EvLocate selector; EvWait (defaultExpectationTimeout w) None]
                  ++ browser_events
                       (polls_with extra (browser.polls_within T (latency w))
                                   (clock w) (Zpos (latency w))))%list).
  { intros k extra Hfn.
    rewrite (checkPresenceAndCondition_trace selector _ w T HT).
    destruct (poll_never_trace _ extra (page w) (Rejected (TimeoutError "")) Hfn
                (browser.polls_within T (latency w))
                (log (EvWait (defaultExpectationTimeout w) None)
                     (log (EvLocate selector) w)) eq_refl) as [_ Htrace].
    rewrite Htrace. cbn [log trace clock latency].
    rewrite !browser_events_app. rewrite <- !app_assoc. reflexivity. }
  split; [|split; [|split]].
  - intros condition. rewrite attributeCondition_unfold.
    rewrite checkPresenceAndCondition_run. cbn [snd].
    rewrite browser_events_log_expect.
    rewrite (wait_fn_ext _ (read (attribute_holds selector attrName condition)))
      by (intros w'; apply and_read).
    unfold browser.wait_fn.
    cbn [log defaultExpectationTimeout]. rewrite HT.
    match goal with
    | |- context [browser.poll ?n ?e _ ?w0] =>
        destruct (poll_read_shape (attribute_holds selector attrName condition) e n w0)
          as [m [Hm Heq]]
    end.
    exists m. split; [exact Hm|].
    rewrite Heq, trace_ticked. cbn [log trace clock latency].
    rewrite !browser_events_app, browser_events_tick_events.
    rewrite <- !app_assoc. reflexivity.
  - intros e He Hv. unfold Expectation.hasAttribute.
    rewrite (Hpolls _ [EvLocate selector]).
    + now rewrite polls_with_locate, browser_events_poll_events.
    + intros w' Hw'.
      rewrite (hasAttr_present selector _ attrName w' e)
        by (unfold dom; rewrite Hw'; apply He).
      rewrite Hv. cbn [fst snd]. eexists. split; [reflexivity|].
      split; [reflexivity|]. split; [reflexivity | apply same_browser_log].
  - intros e value He Hv. unfold Expectation.hasNoAttribute.
    rewrite (Hpolls _ [EvLocate selector]).
    + now rewrite polls_with_locate, browser_events_poll_events.
    + intros w' Hw'.
      rewrite (hasAttr_present selector _ attrName w' e)
        by (unfold dom; rewrite Hw'; apply He).
      rewrite Hv. cbn [fst snd]. eexists. split; [reflexivity|].
      split; [reflexivity|]. split; [reflexivity | apply same_browser_log].
  - intros Habsent.
    unfold Expectation.hasAttribute, Expectation.hasNoAttribute.
    rewrite !(Hpolls _ []).
    + now rewrite polls_with_nothing, browser_events_tick_events.
    + intros w' Hw'.
      rewrite (hasAttr_absent selector _ attrName w')
        by (unfold dom; rewrite Hw'; apply Habsent).
      cbn [fst snd]. eexists. split; [reflexivity|].
      split; [reflexivity|]. split; [now rewrite app_nil_r | apply same_browser_refl].
    + intros w' Hw'.
      rewrite (hasAttr_absent selector _ attrName w')
        by (unfold dom; rewrite Hw'; apply Habsent).
      cbn [fst snd]. eexists. split; [reflexivity|].
      split; [reflexivity|]. split; [now rewrite app_nil_r | apply same_browser_refl].
Qed.

(** On the growing page the rows have no [title]: each of the four polls
    of one second locates the row again. *)
Lemma hasAttribute_locates_at_each_poll_witness :
  browser_events (trace (snd (Expectation.hasAttribute (Css ".row") "title"
                                (example_world (JNum 1000)))))
  = [EvLocate (Css ".row"); EvWait (JNum 1000) None;
     EvPoll 0; EvLocate (Css ".row"); EvPoll 250; EvLocate (Css ".row");
     EvPoll 500; EvLocate (Css ".row"); EvPoll 750; EvLocate (Css ".row")].
Proof.
  destruct (hasAttribute_locates_at_each_poll (Css ".row") "title"
              (example_world (JNum 1000)) 1000 eq_refl) as (_ & Hhas & _).
  rewrite (Hhas row).
  - reflexivity.
  - intros t. cbv [element_at]. cbn. destruct (t <? 600); reflexivity.
  - reflexivity.
Defined.

(** ** What is scheduled behind an expectation *)

Lemma attributeContainsValue_static selector attrName value w T e text :
  browser.deadline (defaultExpectationTimeout w) = Some T ->
  (forall t, element_at selector w t = Some e) ->
  assoc attrName (el_attributes e) = Some text ->
  succeeds (fst (Expectation.attributeContainsValue selector attrName value w)) = true
  <-> occurs_in value text.
Proof.
  intros HT He Hv. unfold Expectation.attributeContainsValue.
  erewrite attributeCondition_static;
    [| exact HT | exact He | exact Hv | reflexivity].
  cbn [R.equals JsVal_eqb]. rewrite bool_eqb_true. apply indexOf_occurs.
Qed.

Lemma present_expectation_frame selector w :
  page (snd (Expectation.present selector w)) = page w
  /\ defaultExpectationTimeout (snd (Expectation.present selector w))
     = defaultExpectationTimeout w.
Proof.
  unfold Expectation.present. rewrite expectExecutedAction_run. cbn [snd log page
    defaultExpectationTimeout].
  unfold WaitCondition.present.
  destruct (check_shape "For element to be present" Condition.present selector w)
    as [m Hm].
  rewrite Hm.
  destruct (polled_frame selector m
              (check_start "For element to be present" selector w)) as (-> & _ & _ & ->).
  split; reflexivity.
Qed.

Lemma check_timeout_deadline w T :
  browser.deadline (defaultExpectationTimeout w) = Some T ->
  browser.deadline (check_timeout w) = Some T.
Proof.
  intros HT. destruct (deadline_inv _ _ HT) as [Heq Hpos].
  unfold check_timeout. rewrite Heq in *. unfold js_or. cbn [truthy].
  destruct (Z.eqb_spec T 0); [lia|]. exact HT.
Qed.

Lemma present_expectation_succeeds selector w T e :
  browser.deadline (defaultExpectationTimeout w) = Some T ->
  element_at selector w (clock w) = Some e ->
  succeeds (fst (Expectation.present selector w)) = true.
Proof.
  intros HT He. apply check_timeout_deadline in HT.
  unfold Expectation.present. rewrite expectExecutedAction_run.
  unfold WaitCondition.present, succeeds. cbn [fst actual].
  destruct (deadline_inv _ _ HT) as [_ Hpos].
  rewrite (check_resolves "For element to be present" Condition.present selector w T
             0%nat (JBool true) HT).
  - reflexivity.
  - apply polls_within_pos. exact Hpos.
  - intros j Hj. lia.
  - unfold outcome_at, Condition.present, Condition.predicate.
    rewrite instant_0. unfold element_at in He. now rewrite He.
  - reflexivity.
Qed.

(** X16. [Expectation.readOnly(selector)] first waits for the element to
    be present and then gives the expectation on the [readonly] attribute:
    on a page where the element stays and the attribute keeps the text
    [text], it succeeds exactly when "true" occurs in [text]. *)
Theorem readOnly_looks_for_true selector w T e text :
  browser.deadline (defaultExpectationTimeout w) = Some T ->
  (forall t, element_at selector w t = Some e) ->
  assoc "readonly" (el_attributes e) = Some text ->
  succeeds (fst (Expectation.readOnly selector w)) = true <-> occurs_in "true" text.
Proof.
  intros HT He Hv. unfold Expectation.readOnly, bind.
  destruct (present_expectation_frame selector w) as [Hpage Hglobal].
  pose proof (present_expectation_succeeds selector w T e HT (He (clock w))) as Hfirst.
  destruct (Expectation.present selector w) as [a w1].
  cbn [fst snd] in Hpage, Hglobal, Hfirst.
  unfold ActionUtil.after. rewrite Hfirst.
  apply (attributeContainsValue_static selector "readonly" "true" w1 T e text).
  - now rewrite Hglobal.
  - intros t. unfold element_at. rewrite Hpage. apply He.
  - exact Hv.
Qed.

Lemma readOnly_looks_for_true_witness :
  succeeds (fst (Expectation.readOnly (Css ".field")
                   (mkWorld 0 (fun _ _ => [mkElement "" true true false
                                             [("readonly", "true")]])
                            250 5 (JNum 1000) [])))
  = true.
Proof.
  apply (readOnly_looks_for_true (Css ".field")
           (mkWorld 0 (fun _ _ => [mkElement "" true true false [("readonly", "true")]])
                    250 5 (JNum 1000) [])
           1000 (mkElement "" true true false [("readonly", "true")]) "true"
           eq_refl (fun _ => eq_refl) eq_refl).
  now exists "", "".
Defined.

(** ** The expectations that wrap a wait of [WaitCondition] *)

Lemma checked_waits_for message g selector :
  waits_for (ActionUtil.expectExecutedAction
               (WaitCondition.check message (Condition.predicate g) selector))
            message g selector.
Proof.
  intros w T HT. rewrite expectExecutedAction_run. cbn [fst snd].
  unfold succeeds. cbn [actual].
  assert (Hval : forall k, (k < browser.polls_within T (latency w))%nat ->
             holds (outcome_at (Condition.predicate g) selector w k) = true
             \/ fails (outcome_at (Condition.predicate g) selector w k) = true).
  { intros k _. unfold outcome_at, Condition.predicate. cbn [holds fails truthy].
    destruct (match ElementFinderApi.resolve _ _ with Some e => g e | None => false end);
      auto. }
  assert (Hmet : (exists k, (k < browser.polls_within T (latency w))%nat
                            /\ holds (outcome_at (Condition.predicate g) selector w k)
                               = true)
                 <-> met_before selector g w T).
  { unfold met_before, outcome_at, Condition.predicate, element_at.
    cbn [holds truthy]. split.
    - intros (k & Hk & Hh).
      destruct (ElementFinderApi.resolve (ElementUtil.finder_of selector)
                  (page w (instant w k))) as [e|] eqn:E; [|discriminate].
      exists k, e. auto.
    - intros (k & e & Hk & He & Hg). exists k. split; [exact Hk|].
      now rewrite He. }
  split; [|split].
  - rewrite <- Hmet, <- (check_resolves_iff message _ selector w T HT Hval). split.
    + destruct (fst (WaitCondition.check message (Condition.predicate g) selector w));
        try discriminate. eauto.
    + intros [v ->]. reflexivity.
  - intros Hfail.
    destruct (check_fulfils_or_expires message (Condition.predicate g) selector w T HT
                (predicate_gives_value g)) as [Hexp | (v & Hv & _)].
    + rewrite Hexp. eexists. split; [reflexivity|].
      unfold errorMessage_of. apply followed_by_intro.
    + rewrite Hv in Hfail. discriminate.
  - destruct (check_trace message (Condition.predicate g) selector w T HT)
      as [m [Hm Heq]].
    exists m. split; [exact Hm|].
    rewrite browser_events_log_expect, Heq, trace_polled_check.
    rewrite !browser_events_app, browser_events_poll_events. reflexivity.
Qed.

(** C4. For every selector [s] and text [t], [Expectation.displayed],
    [enabled], [present], [textEquals] and [textContains] perform the wait
    of the [WaitCondition] method of the same name on the same arguments
    and wrap its result into an assertion, and nothing else. What that
    wait is shows in what each of them does under a deadline: it succeeds
    exactly when, at a poll before the deadline, the element is there and
    is displayed, is enabled, is there, has the text [t], respectively
    has a text that contains [t]; otherwise it is rejected by the timeout
    with the description of its own wait; and the browser is asked for
    the wait and its polls only. *)
Theorem expectations_wrap_their_wait (s : Selector) (t : JsVal) :
  Expectation.displayed s = wrapped_into_assertion (WaitCondition.displayed s)
  /\ Expectation.enabled s = wrapped_into_assertion (WaitCondition.enabled s)
  /\ Expectation.present s = wrapped_into_assertion (WaitCondition.present s)
  /\ Expectation.textEquals s t
     = wrapped_into_assertion (WaitCondition.textEquals s t)
  /\ Expectation.textContains s t
     = wrapped_into_assertion (WaitCondition.textContains s t)
  /\ waits_for (Expectation.displayed s) "For element to be displayed" el_displayed s
  /\ waits_for (Expectation.enabled s) "For element to be enabled" el_enabled s
  /\ waits_for (Expectation.present s) "For element to be present" (fun _ => true) s
  /\ waits_for (Expectation.textEquals s t)
               ("for element's text to be '" ++ toString t ++ "'")
               (fun e => R.equals (JStr (el_text e)) t) s
  /\ waits_for (Expectation.textContains s t)
               (nl ++ "    for" ++ nl ++ "    element" ++ nl
                   ++ "    's text to contain '" ++ toString t ++ nl ++ "    '")
               (fun e => Condition.includes (toString t) (el_text e)) s.
Proof.
  do 5 (split; [reflexivity|]).
  do 4 (split; [apply checked_waits_for|]).
  apply checked_waits_for.
Qed.

(** On the growing page the rows read "Hello" from the first poll on. *)
Lemma expectations_wrap_their_wait_witness :
  succeeds (fst (Expectation.textEquals (Css ".row") (JStr "Hello")
                   (example_world (JNum 1000)))) = true
  /\ succeeds (fst (Expectation.textEquals (Css ".row") (JStr "Bye")
                      (example_world (JNum 1000)))) = false.
Proof.
  destruct (expectations_wrap_their_wait (Css ".row") (JStr "Hello"))
    as (_ & _ & _ & _ & _ & _ & _ & _ & Hello & _).
  destruct (expectations_wrap_their_wait (Css ".row") (JStr "Bye"))
    as (_ & _ & _ & _ & _ & _ & _ & _ & Bye & _).
  split.
  - destruct (Hello (example_world (JNum 1000)) 1000 eq_refl) as [Hiff _].
    apply Hiff. exists 0%nat, row. repeat split. vm_compute. lia.
  - destruct (Bye (example_world (JNum 1000)) 1000 eq_refl) as [Hnot _].
    destruct (succeeds (fst (Expectation.textEquals (Css ".row") (JStr "Bye")
                               (example_world (JNum 1000))))) eqn:E;
      [|reflexivity].
    destruct (proj1 Hnot eq_refl) as (k & e & _ & He & Hg).
    cbv [element_at] in He. cbn in He.
    destruct (_ <? 600); injection He as <-; discriminate Hg.
Defined.

(** ** The click, and the focus that is not there *)

Lemma click_run selector w :
  Action.click selector w
  = ActionUtil.after (fst (Expectation.clickable selector w))
      (ActionUtil.expectExecutedAction
         (f <- ElementUtil.elementFinder selector ;; ElementFinderApi.click f))
      (snd (Expectation.clickable selector w)).
Proof.
  unfold Action.click. unfold bind at 1.
  destruct (Expectation.clickable selector w); reflexivity.
Qed.

Lemma focus_run selector w :
  Action.focus selector w
  = ActionUtil.after (fst (Expectation.clickable selector w))
      (ActionUtil.expectExecutedAction
         (f <- ElementUtil.elementFinder selector ;;
          ElementFinderApi.missing_method f "focus"))
      (snd (Expectation.clickable selector w)).
Proof.
  unfold Action.focus. unfold bind at 1.
  destruct (Expectation.clickable selector w); reflexivity.
Qed.

(** What [Expectation.clickable] asks of the browser: the wait and its
    polls. *)
Lemma clickable_events selector w :
  exists polls,
    browser_events (trace (snd (Expectation.clickable selector w)))
    = (browser_events (trace w)
         ++ [EvLocate selector;
             EvWait (check_timeout w)
                    (Some (errorMessage_of "for element to be clickable" selector))]
         ++ poll_events selector polls (clock w) (Zpos (latency w)))%list.
Proof.
  unfold Expectation.clickable, Expectation.checkCondition.
  rewrite expectExecutedAction_run. cbn [snd].
  destruct (check_shape "for element to be clickable" Condition.clickable selector w)
    as [m Hm].
  exists m. rewrite browser_events_log_expect, Hm, trace_polled_check.
  rewrite !browser_events_app, browser_events_poll_events. reflexivity.
Qed.

Lemma after_events previous next w :
  browser_events (trace (snd (ActionUtil.after previous next w)))
  = if succeeds previous then browser_events (trace (snd (next w)))
    else browser_events (trace w).
Proof.
  unfold ActionUtil.after. destruct (succeeds previous); [reflexivity|].
  rewrite expectExecutedAction_run. cbn [ret snd fst].
  apply browser_events_log_expect.
Qed.

Lemma after_actual previous next w :
  actual (fst (ActionUtil.after previous next w))
  = if succeeds previous then actual (fst (next w)) else Pending.
Proof.
  unfold ActionUtil.after. destruct (succeeds previous); reflexivity.
Qed.

Lemma In_browser_events ev evs :
  In ev (browser_events evs)
  <-> In ev evs /\ match ev with EvExpect _ => False | _ => True end.
Proof.
  unfold browser_events. rewrite filter_In.
  destruct ev; intuition discriminate.
Qed.

Lemma poll_events_In selector lat ev : forall k t,
  In ev (poll_events selector k t lat) -> user_action ev = false.
Proof.
  induction k as [|k IH]; intros t; cbn [poll_events In]; [tauto|].
  intros [<- | [<- | H]]; [reflexivity | reflexivity | eauto].
Qed.

(** C6. [Action.click(selector)] and [Action.focus(selector)] first run
    the clickable expectation through the wait engine: the browser is
    asked for the wait and its polls, among which there is no user
    action. The click is issued after that, on the element resolved from
    the selector, and only when the expectation succeeded. The focus is
    never issued: behind a wait that succeeded the element is located
    and the call of its [focus] throws, so that the result is rejected
    with a [TypeError]; behind a wait that did not succeed nothing is
    run, for the click as for the focus. *)
Theorem click_follows_the_wait_focus_is_never_issued (selector : Selector) (w : World) :
  exists waited,
    browser_events (trace (snd (Expectation.clickable selector w)))
    = (browser_events (trace w) ++ waited)%list
    /\ In (EvWait (check_timeout w)
                  (Some (errorMessage_of "for element to be clickable" selector)))
          waited
    /\ existsb user_action waited = false
    /\ browser_events (trace (snd (Action.click selector w)))
       = (browser_events (trace w) ++ waited
            ++ (if succeeds (fst (Expectation.clickable selector w))
                then [EvLocate selector; EvClick (ElementUtil.finder_of selector)]
                else []))%list
    /\ browser_events (trace (snd (Action.focus selector w)))
       = (browser_events (trace w) ++ waited
            ++ (if succeeds (fst (Expectation.clickable selector w))
                then [EvLocate selector]
                else []))%list
    /\ (forall f, In (EvFocus f) (trace (snd (Action.focus selector w))) ->
                  In (EvFocus f) (trace w))
    /\ (succeeds (fst (Expectation.clickable selector w)) = true ->
        exists m,
          actual (fst (Action.focus selector w)) = Rejected (TypeError m)
          /\ occurs_in "focus is not a function" m)
    /\ (succeeds (fst (Expectation.clickable selector w)) = false ->
        actual (fst (Action.click selector w)) = Pending
        /\ actual (fst (Action.focus selector w)) = Pending).
Proof.
  destruct (clickable_events selector w) as [polls Hwait].
  assert (Hclick : browser_events (trace (snd (Action.click selector w)))
                   = (browser_events (trace w)
                        ++ ([EvLocate selector;
                             EvWait (check_timeout w)
                                    (Some (errorMessage_of "for element to be clickable"
                                                           selector))]
                              ++ poll_events selector polls (clock w) (Zpos (latency w)))
                        ++ (if succeeds (fst (Expectation.clickable selector w))
                            then [EvLocate selector;
                                  EvClick (ElementUtil.finder_of selector)]
                            else []))%list).
  { rewrite click_run, after_events.
    destruct (succeeds (fst (Expectation.clickable selector w))).
    - rewrite expectExecutedAction_run. cbn [snd].
      rewrite browser_events_log_expect.
      cbv beta iota zeta delta [bind ElementUtil.elementFinder ElementFinderApi.click
                                  emit read ret].
      cbn [fst snd log trace]. rewrite !browser_events_app, Hwait.
      rewrite <- !app_assoc. reflexivity.
    - rewrite Hwait, app_nil_r. reflexivity. }
  assert (Hfocus : browser_events (trace (snd (Action.focus selector w)))
                   = (browser_events (trace w)
                        ++ ([EvLocate selector;
                             EvWait (check_timeout w)
                                    (Some (errorMessage_of "for element to be clickable"
                                                           selector))]
                              ++ poll_events selector polls (clock w) (Zpos (latency w)))
                        ++ (if succeeds (fst (Expectation.clickable selector w))
                            then [EvLocate selector]
                            else []))%list).
  { rewrite focus_run, after_events.
    destruct (succeeds (fst (Expectation.clickable selector w))).
    - rewrite expectExecutedAction_run. cbn [snd].
      rewrite browser_events_log_expect.
      cbv beta iota zeta delta [bind ElementUtil.elementFinder
                                  ElementFinderApi.missing_method
                                  emit read ret].
      cbn [fst snd log trace]. rewrite !browser_events_app, Hwait.
      rewrite <- !app_assoc. reflexivity.
    - rewrite Hwait, app_nil_r. reflexivity. }
  eexists. split; [exact Hwait|].
  split; [right; left; reflexivity|].
  split.
  { cbn [app existsb user_action orb]. apply poll_events_no_user_action. }
  split; [exact Hclick|]. split; [exact Hfocus|]. split; [|split].
  - intros f Hin.
    assert (Hin' : In (EvFocus f)
                      (browser_events (trace (snd (Action.focus selector w)))))
      by (apply In_browser_events; auto).
    rewrite Hfocus in Hin'.
    apply in_app_or in Hin'. destruct Hin' as [Hin' | Hin'].
    { apply In_browser_events in Hin'. tauto. }
    apply in_app_or in Hin'. destruct Hin' as [Hin' | Hin'].
    + cbn [app In] in Hin'. destruct Hin' as [Hin' | [Hin' | Hin']];
        try discriminate.
      apply poll_events_In in Hin'. discriminate.
    + destruct (succeeds _); cbn [In] in Hin'; [|tauto].
      destruct Hin' as [Hin' | []]. discriminate.
  - intros Hs. rewrite focus_run, after_actual, Hs.
    rewrite expectExecutedAction_run. cbn [fst actual].
    eexists. split; [reflexivity|]. now exists "", "".
  - intros Hs. rewrite click_run, focus_run, !after_actual, Hs. auto.
Qed.

(** [Action.focus('.row')] on the growing page: the row is clickable at
    the first poll, and the call is rejected with the [TypeError]. *)
Lemma click_follows_the_wait_focus_is_never_issued_witness :
  (exists m,
     actual (fst (Action.focus (Css ".row") (example_world (JNum 1000))))
     = Rejected (TypeError m)
     /\ occurs_in "focus is not a function" m)
  /\ forall f,
       ~ In (EvFocus f) (trace (snd (Action.focus (Css ".row")
                                       (example_world (JNum 1000))))).
Proof.
  destruct (click_follows_the_wait_focus_is_never_issued
              (Css ".row") (example_world (JNum 1000)))
    as (waited & _ & _ & _ & _ & _ & Hnever & Hthrows & _).
  split.
  - apply Hthrows. vm_compute. reflexivity.
  - intros f Hin. apply Hnever in Hin. exact Hin.
Defined.



